(** * gotrue: API helpers and administrative user handlers

    A shallow embedding of the helpers of package [api] (claims
    resolution, admin check, redirect validation, private-address block
    list) and of the update and delete handlers of [api/admin.go],
    followed by the properties proved about them.

    Go values are modelled as follows.
    - A [string] is a Go string (a byte sequence).
    - A pointer that may be [nil] is an [option]; calling a method on a
      [nil] receiver that reads a field faults, which [outcome] records.
    - A [(value, error)] result pair is kept as a pair of options, as the
      callers in the source test the error and use the value separately.
    - A Go map ranged over for an existence test is a [gmap]. *)

From Stdlib Require Import ZArith NArith String Ascii List Bool Lia DecimalString
  Btauto.
From stdpp Require Import base option gmap strings list.

Local Open Scope Z_scope.

(** ** Go runtime *)

(** The result of running a function that may fault (a run-time panic). *)
Inductive outcome (A : Type) : Type :=
| Returns (a : A)
| Panics (reason : string).
Arguments Returns {A} a.
Arguments Panics {A} reason.

#[global] Instance outcome_ret : MRet outcome := fun A a => Returns a.
#[global] Instance outcome_bind : MBind outcome := fun A B f m =>
  match m with
  | Returns a => f a
  | Panics reason => Panics reason
  end.

(** The message of the fault raised by reading through a nil pointer. *)
Definition nil_dereference : string :=
  "runtime error: invalid memory address or nil pointer dereference".

(** [p.f()] for a method [f] that reads the fields of its receiver. *)
Definition method {T A : Type} (p : option T) (f : T -> A) : outcome A :=
  match p with
  | Some v => Returns (f v)
  | None => Panics nil_dereference
  end.

(** [err == nil] *)
Definition isNil {E : Type} (err : option E) : bool :=
  match err with
  | None => true
  | Some _ => false
  end.

(** Go [error] values met in the two files. *)
Inductive error : Type :=
| errors_New (msg : string)
| url_Error (op rawURL : string)
| UserNotFoundError
| storage_Error (what : string)
| HTTPError (code : Z) (msg : string)
| WithInternalError (e cause : error).

(** ** Package [strings] *)
Module strings.

Definition HasPrefix (s prefix : string) : bool := String.prefix prefix s.

Definition HasSuffix (s suffix : string) : bool :=
  (String.length suffix <=? String.length s)%nat &&
  String.eqb
    (String.substring (String.length s - String.length suffix)
                      (String.length suffix) s)
    suffix.

Definition TrimSuffix (s suffix : string) : string :=
  if HasSuffix s suffix
  then String.substring 0 (String.length s - String.length suffix) s
  else s.

Definition Contains (s substr : string) : bool :=
  match String.index 0 substr s with
  | Some _ => true
  | None => false
  end.

End strings.

(** ** Package [net/url]: the URL structure and the interface used *)
Module url.

Record Userinfo : Type := {
  username : string;
  password : string;
  passwordSet : bool
}.

Record URL : Type := {
  Scheme : string;
  Opaque : string;
  User : option Userinfo;
  Host : string;
  Path : string;
  RawPath : string;
  ForceQuery : bool;
  RawQuery : string;
  Fragment : string;
  RawFragment : string
}.

(** [parsed.Path = p] *)
Definition set_Path (p : string) (u : URL) : URL :=
  {| Scheme := Scheme u; Opaque := Opaque u; User := User u; Host := Host u;
     Path := p; RawPath := RawPath u; ForceQuery := ForceQuery u;
     RawQuery := RawQuery u; Fragment := Fragment u;
     RawFragment := RawFragment u |}.

(** The three library entry points the helpers call.  The properties of
    the helpers are proved for every implementation of this interface; a
    model of the library itself is given further down ([GoURL]). *)
Class Lib : Type := {
  Parse : string -> option URL;      (* [None]: a non-nil error *)
  String : URL -> string;
  Hostname : URL -> string
}.

End url.

(** ** Package [glob]: a compiled pattern is a value with a [Match] method *)
Record Glob : Type := { Match : string -> bool }.

(** ** Package [conf]: the configuration fields read by the two files *)
Module conf.

Record JWTConfiguration : Type := {
  Aud : string;
  AdminGroupName : string;
  DefaultGroupName : string
}.

Record Configuration : Type := {
  SiteURL : string;
  URIAllowListMap : gmap string Glob;
  JWT : JWTConfiguration;
  PasswordMinLength : Z
}.

End conf.

(** ** Helpers of package [api]: redirect validation *)
Section Redirects.
Context {L : url.Lib}.

(** The body of the [if] of [parseURL]: for http and https only, one
    trailing slash is removed from the path. *)
Definition normalizePath (parsed : url.URL) : url.URL :=
  if String.eqb (url.Scheme parsed) "https" || String.eqb (url.Scheme parsed) "http"
  then url.set_Path (strings.TrimSuffix (url.Path parsed) "/") parsed
  else parsed.

Definition parseURL (u : string) : option url.URL * option error :=
  match url.Parse u with
  | None => (None, Some (url_Error "parse" u))
  | Some parsed => (Some (normalizePath parsed), None)
  end.

(** One iteration of the loop over the allow list. *)
Definition allowListEntryMatches (matchURL redirectURL : string)
    (entry : string * Glob) : bool :=
  let '(uri, g) := entry in
  if strings.HasPrefix uri "http" || strings.HasPrefix uri "https"
  then Match g matchURL
  else String.eqb redirectURL uri.

Definition isRedirectURLValid (config : conf.Configuration) (redirectURL : string)
    : outcome bool :=
  if String.eqb redirectURL "" then Returns false else
  let '(base, berr) := parseURL (conf.SiteURL config) in
  let '(refurl, rerr) := parseURL redirectURL in
  matchURL ← method refurl url.String;
  sameHost ← (if isNil berr && isNil rerr
              then bh ← method base url.Hostname;
                   rh ← method refurl url.Hostname;
                   Returns (String.eqb bh rh)
              else Returns false);
  if (sameHost : bool) then Returns true else
  Returns (existsb (allowListEntryMatches matchURL redirectURL)
                   (map_to_list (conf.URIAllowListMap config))).

End Redirects.

(** ** Packages [uuid], [time]: the values and the interface used *)
Module uuid.

(** A UUID is a 128-bit value. *)
Definition UUID : Type := N.

Class Lib : Type := {
  FromString : string -> option UUID;  (* [None]: a non-nil error *)
  String : UUID -> string
}.

End uuid.

Module time.

(** A [time.Duration] is a count of nanoseconds; a [time.Time] is kept as
    the nanoseconds elapsed since the epoch. *)
Definition Duration : Type := Z.
Definition Time : Type := Z.

Definition Add (t : Time) (d : Duration) : Time := t + d.

Class Lib : Type := {
  ParseDuration : string -> option Duration  (* [None]: a non-nil error *)
}.

End time.

(** ** Package [models]: users, claims, audit log entries *)
Module models.

(** Modelled from the spec: the [User] structure is declared in package
    [models], which is not among the sources; these are the fields the
    data model of the specification lists and the two files read. *)
Record User : Type := {
  InstanceID : uuid.UUID;
  ID : uuid.UUID;
  Aud : string;
  Role : string;
  Email : string;
  Phone : string;
  EncryptedPassword : string;
  EmailConfirmedAt : option time.Time;
  PhoneConfirmedAt : option time.Time;
  AppMetaData : gmap string string;
  UserMetaData : gmap string string;
  IsSuperAdmin : bool;
  BannedUntil : option time.Time
}.

(** The claims of a verified token, as read by the helpers. *)
Record GoTrueClaims : Type := {
  Subject : string;
  Audience : string
}.

Inductive AuditAction : Type :=
| UserSignedUpAction
| UserModifiedAction
| UserDeletedAction.

(** Modelled from the spec: an audit log entry holds the actor, the action
    kind and a snapshot (id, email, phone) of the target user. *)
Record AuditLogEntry : Type := {
  entry_InstanceID : uuid.UUID;
  entry_Actor : option User;
  entry_Action : AuditAction;
  entry_user_id : uuid.UUID;
  entry_user_email : string;
  entry_user_phone : string
}.

(** Modelled from the spec: the storage the core works against holds the
    user rows, keyed by identifier, and the audit log. *)
Record Store : Type := {
  Users : gmap uuid.UUID User;
  AuditLog : list AuditLogEntry
}.

(** Modelled from the spec: a user holds a role when it is the user's
    role ([HasRole] is a method of [models.User]). *)
Definition HasRole (u : User) (roleName : string) : bool :=
  String.eqb (Role u) roleName.

(** Modelled from the spec: the synthetic system user, scoped to the tenant
    partition and the audience given ([NewSystemUser] is a function of
    package [models]).  [systemUserUUID] is the reserved identifier. *)
Definition NewSystemUser (systemUserUUID instanceID : uuid.UUID) (aud : string)
    : User :=
  {| InstanceID := instanceID; ID := systemUserUUID; Aud := aud;
     Role := ""; Email := ""; Phone := ""; EncryptedPassword := "";
     EmailConfirmedAt := None; PhoneConfirmedAt := None;
     AppMetaData := ∅; UserMetaData := ∅;
     IsSuperAdmin := true; BannedUntil := None |}.

(** Modelled from the spec: look a user up by tenant and identifier; no row
    is a not-found error ([FindUserByInstanceIDAndID] is a function of
    package [models]). *)
Definition FindUserByInstanceIDAndID (conn : Store) (instanceID id : uuid.UUID)
    : option User * option error :=
  match Users conn !! id with
  | Some u =>
      if N.eqb (InstanceID u) instanceID then (Some u, None)
      else (None, Some UserNotFoundError)
  | None => (None, Some UserNotFoundError)
  end.

End models.

(** ** The request context and the request *)

(** What the handlers and helpers read from [context.Context]: the token
    claims ([getClaims]), the tenant ([getInstanceID]), the configuration
    ([getConfig]) and the acting administrator ([getAdminUser]).  The
    target user ([getUser]) is a pointer to an object that the handlers
    update in place; that object is part of [World] below. *)
Record Context : Type := {
  getClaims : option models.GoTrueClaims;
  getInstanceID : uuid.UUID;
  getConfig : conf.Configuration;
  getAdminUser : option models.User
}.

(** The parts of [http.Request] the helpers read. [ParseForm] is the error
    returned by [r.ParseForm()]; [Form_Get] is [r.Form.Get] after it. *)
Record Request : Type := {
  Header_Get : string -> string;
  ParseForm : option error;
  Form_Get : string -> string;
  Request_Context : Context
}.

Definition Referer (r : Request) : string := Header_Get r "Referer".

(** A query sent to storage, recorded to tell which calls reach it. *)
Inductive StorageQuery : Type :=
| QueryFindUser (instanceID id : uuid.UUID).

(** ** Helpers of package [api]: claims and admin check *)
Section Claims.
Context {U : uuid.Lib}.
(** The reserved identifiers of the system user, constants of package
    [models]. *)
Variable SystemUserUUID : uuid.UUID.
Variable SystemUserID : string.

(** Returns the Go result pair and the storage queries issued. *)
Definition getUserFromClaims (ctx : Context) (conn : models.Store)
    : (option models.User * option error) * list StorageQuery :=
  match getClaims ctx with
  | None => ((None, Some (errors_New "Invalid token")), [])
  | Some claims =>
      if String.eqb (models.Subject claims) ""
      then ((None, Some (errors_New "Invalid claim: id")), [])
      else
        let instanceID := getInstanceID ctx in
        if String.eqb (models.Subject claims) (uuid.String SystemUserUUID)
           || String.eqb (models.Subject claims) SystemUserID
        then ((Some (models.NewSystemUser SystemUserUUID instanceID
                       (models.Audience claims)), None), [])
        else
          match uuid.FromString (models.Subject claims) with
          | None => ((None, Some (errors_New "Invalid user ID")), [])
          | Some userID =>
              (models.FindUserByInstanceIDAndID conn instanceID userID,
               [QueryFindUser instanceID userID])
          end
  end.

End Claims.

Definition isAdmin (ctx : Context) (u : models.User) (aud : string) : bool :=
  let config := getConfig ctx in
  let aud := if String.eqb aud "" then conf.Aud (conf.JWT config) else aud in
  models.IsSuperAdmin u
  || (String.eqb aud (models.Aud u)
      && models.HasRole u (conf.AdminGroupName (conf.JWT config))).

(** ** Helpers of package [api]: the effective redirect *)

Definition getRedirectTo (r : Request) : string :=
  let reqref := Header_Get r "redirect_to" in
  if negb (String.eqb reqref "") then reqref else
  if isNil (ParseForm r) then Form_Get r "redirect_to" else reqref.

Section Referrer.
Context {L : url.Lib}.

Definition getReferrer (r : Request) : outcome string :=
  let ctx := Request_Context r in
  let config := getConfig ctx in
  let reqref := getRedirectTo r in
  valid ← isRedirectURLValid config reqref;
  if (valid : bool) then Returns reqref else
  let reqref := Referer r in
  valid ← isRedirectURLValid config reqref;
  if (valid : bool) then Returns reqref else
  Returns (conf.SiteURL config).

End Referrer.

(** ** Package [net]: addresses and networks *)
Module net.

(** An [IP] and an [IPMask] are byte slices; [nil] is the empty slice. *)
Definition IP : Type := list Z.
Definition IPMask : Type := list Z.

Record IPNet : Type := {
  net_IP : IP;
  net_Mask : IPMask
}.

Definition IPv4len : nat := 4.
Definition IPv6len : nat := 16.

Definition v4InV6Prefix : list Z := [0; 0; 0; 0; 0; 0; 0; 0; 0; 0; 255; 255].

Definition bytesEqual (a b : list Z) : bool :=
  (length a =? length b)%nat && forallb (fun p => fst p =? snd p) (combine a b).

(** [IPv4(a, b, c, d)]: the 16-byte form of an IPv4 address. *)
Definition IPv4 (a b c d : Z) : IP := v4InV6Prefix ++ [a; b; c; d].

(** [ip.To4()]; [None] is the nil result. *)
Definition To4 (ip : IP) : option IP :=
  if (length ip =? IPv4len)%nat then Some ip
  else if (length ip =? IPv6len)%nat && bytesEqual (take 12 ip) v4InV6Prefix
       then Some (drop 12 ip)
       else None.

Definition networkNumberAndMask (n : IPNet) : IP * IPMask :=
  let ip_ok :=
    match To4 (net_IP n) with
    | Some ip => Some ip
    | None => if (length (net_IP n) =? IPv6len)%nat then Some (net_IP n) else None
    end in
  match ip_ok with
  | None => ([], [])
  | Some ip =>
      let m := net_Mask n in
      if (length m =? IPv4len)%nat then
        if (length ip =? IPv4len)%nat then (ip, m) else ([], [])
      else if (length m =? IPv6len)%nat then
        if (length ip =? IPv4len)%nat then (ip, drop 12 m) else (ip, m)
      else ([], [])
  end.

(** [n.Contains(ip)] for a non-nil [n]. *)
Definition Contains (n : IPNet) (ip : IP) : bool :=
  let '(nn, m) := networkNumberAndMask n in
  let ip := match To4 ip with Some x => x | None => ip end in
  if negb (length ip =? length nn)%nat then false
  else forallb (fun '(a, b, k) => Z.land a k =? Z.land b k)
               (combine (combine nn ip) m).

(** [CIDRMask(ones, bits)] for [0 <= ones <= bits], [bits] 32 or 128. *)
Fixpoint maskBytes (l : nat) (n : Z) : IPMask :=
  match l with
  | O => []
  | S l' =>
      if 8 <=? n then 255 :: maskBytes l' (n - 8)
      else Z.lxor 255 (Z.shiftr 255 n) :: maskBytes l' 0
  end.

Definition CIDRMask (ones bits : Z) : IPMask :=
  if negb ((bits =? 32) || (bits =? 128)) then []
  else if (ones <? 0) || (bits <? ones) then []
  else maskBytes (Z.to_nat (bits / 8)) ones.

(** [ip.Mask(mask)] *)
Definition Mask (ip : IP) (mask : IPMask) : IP :=
  let mask := if (length mask =? IPv6len)%nat && (length ip =? IPv4len)%nat
                 && forallb (Z.eqb 255) (take 12 mask)
              then drop 12 mask else mask in
  let ip := if (length mask =? IPv4len)%nat && (length ip =? IPv6len)%nat
               && bytesEqual (take 12 ip) v4InV6Prefix
            then drop 12 ip else ip in
  if negb (length ip =? length mask)%nat then []
  else map (fun '(a, k) => Z.land a k) (combine ip mask).

(** *** Textual addresses

    A model of the library's parsers for dotted-decimal IPv4 addresses
    (four fields up to 255, no leading zero) and colon-hexadecimal IPv6
    addresses (groups of one to four digits, at most one [::]).  Zones
    and IPv6 addresses with an IPv4 tail are outside the model and are
    reported as parse errors. *)

Definition code (c : ascii) : Z := Z.of_N (N_of_ascii c).

Definition isDigit (c : ascii) : bool := (48 <=? code c) && (code c <=? 57).

Definition hexValue (c : ascii) : option Z :=
  let n := code c in
  if (48 <=? n) && (n <=? 57) then Some (n - 48)
  else if (97 <=? n) && (n <=? 102) then Some (n - 97 + 10)
  else if (65 <=? n) && (n <=? 70) then Some (n - 65 + 10)
  else None.

(** The fields of [s] between occurrences of [sep]. *)
Fixpoint fields (sep : ascii) (s : string) : list string :=
  match s with
  | EmptyString => [EmptyString]
  | String c s' =>
      if Ascii.eqb c sep then EmptyString :: fields sep s'
      else match fields sep s' with
           | f :: fs => String c f :: fs
           | [] => [String c EmptyString]
           end
  end.

Fixpoint decimal (acc : Z) (s : string) : option Z :=
  match s with
  | EmptyString => Some acc
  | String c s' =>
      if isDigit c then decimal (acc * 10 + (code c - 48)) s' else None
  end.

Fixpoint hexadecimal (acc : Z) (s : string) : option Z :=
  match s with
  | EmptyString => Some acc
  | String c s' =>
      match hexValue c with
      | Some v => hexadecimal (acc * 16 + v) s'
      | None => None
      end
  end.

(** A decimal number of one to [digits] digits with no leading zero. *)
Definition number (digits : nat) (s : string) : option Z :=
  if (String.length s =? 0)%nat || (digits <? String.length s)%nat then None
  else if (1 <? String.length s)%nat && String.prefix "0" s then None
  else decimal 0 s.

(** [dtoi]: a non-empty run of decimal digits. *)
Definition dtoi (s : string) : option Z :=
  if String.eqb s "" then None else decimal 0 s.

Definition ipv4Field (s : string) : option Z :=
  match number 3 s with
  | Some n => if n <=? 255 then Some n else None
  | None => None
  end.

Definition ipv6Group (s : string) : option (list Z) :=
  if (String.length s =? 0)%nat || (4 <? String.length s)%nat then None
  else match hexadecimal 0 s with
       | Some n => Some [Z.shiftr n 8; Z.land n 255]
       | None => None
       end.

(** All of the options, or none. *)
Fixpoint allSome {A : Type} (l : list (option A)) : option (list A) :=
  match l with
  | [] => Some []
  | Some x :: l' =>
      match allSome l' with Some xs => Some (x :: xs) | None => None end
  | None :: _ => None
  end.

Definition parseIPv4 (s : string) : option IP :=
  match allSome (map ipv4Field (fields "." s)) with
  | Some [a; b; c; d] => Some (IPv4 a b c d)
  | _ => None
  end.

Definition ipv6Groups (s : string) : option (list Z) :=
  if String.eqb s "" then Some []
  else match allSome (map ipv6Group (fields ":" s)) with
       | Some gs => Some (concat gs)
       | None => None
       end.

(** Where the first [::] of [s] starts, if there is one. *)
Definition ellipsis (s : string) : option nat := String.index 0 "::" s.

Definition parseIPv6 (s : string) : option IP :=
  match ellipsis s with
  | Some i =>
      let before := String.substring 0 i s in
      let after := String.substring (i + 2) (String.length s - (i + 2)) s in
      match ipv6Groups before, ipv6Groups after with
      | Some h, Some t =>
          if (length h + length t <=? 14)%nat
          then Some (h ++ replicate (16 - (length h + length t)) 0 ++ t)
          else None
      | _, _ => None
      end
  | None =>
      match ipv6Groups s with
      | Some gs => if (length gs =? 16)%nat then Some gs else None
      | None => None
      end
  end.

(** [net.ParseIP]; [None] is the nil result. *)
Definition ParseIP (s : string) : option IP :=
  match parseIPv4 s with
  | Some ip => Some ip
  | None => parseIPv6 s
  end.

(** [net.ParseCIDR]: the network of the result, [None] with an error. *)
Definition ParseCIDR (s : string) : option IPNet :=
  match fields "/" s with
  | [addr; mask] =>
      let parsed :=
        match parseIPv4 addr with
        | Some ip => Some (ip, 32)
        | None => match parseIPv6 addr with
                  | Some ip => Some (ip, 128)
                  | None => None
                  end
        end in
      match parsed, dtoi mask with
      | Some (ip, bits), Some n =>
          if n <=? bits
          then let m := CIDRMask n bits in
               Some {| net_IP := Mask ip m; net_Mask := m |}
          else None
      | _, _ => None
      end
  | _ => None
  end.

End net.

(** ** Helpers of package [api]: the private-address block list *)

(** A [*net.IPNet]: [nil], or the address of an allocated network.  Two
    pointers are equal when both are nil or both hold the same address. *)
Definition IPNetPtr : Type := option (nat * net.IPNet).

Definition ptrEq (p q : IPNetPtr) : bool :=
  match p, q with
  | None, None => true
  | Some (a, _), Some (b, _) => (a =? b)%nat
  | _, _ => false
  end.

(** The package-level variable [privateIPBlocks], with the number of
    networks allocated so far (the next fresh address). *)
Record Globals : Type := {
  privateIPBlocks : list IPNetPtr;
  allocated : nat
}.

(** [_, block, _ := net.ParseCIDR(cidr)]: a parsed network is freshly
    allocated; on a parse error the pointer is nil. *)
Definition parseCIDRBlock (cidr : string) (g : Globals) : IPNetPtr * Globals :=
  match net.ParseCIDR cidr with
  | Some n => (Some (allocated g, n),
               {| privateIPBlocks := privateIPBlocks g;
                  allocated := S (allocated g) |})
  | None => (None, g)
  end.

Definition privateCIDRs : list string :=
  [ "127.0.0.0/8";    (* IPv4 loopback *)
    "10.0.0.0/8";     (* RFC1918 *)
    "100.64.0.0/10";  (* RFC6598 *)
    "172.16.0.0/12";  (* RFC1918 *)
    "192.0.0.0/24";   (* RFC6890 *)
    "192.168.0.0/16"; (* RFC1918 *)
    "169.254.0.0/16"; (* RFC3927 *)
    "::1/128";        (* IPv6 loopback *)
    "fe80::/10";      (* IPv6 link-local *)
    "fc00::/7"        (* IPv6 unique local addr *) ].

(** [func init()], run on the empty block list. *)
Definition init : Globals :=
  fold_left
    (fun g cidr =>
       let '(block, g) := parseCIDRBlock cidr g in
       {| privateIPBlocks := privateIPBlocks g ++ [block];
          allocated := allocated g |})
    privateCIDRs
    {| privateIPBlocks := []; allocated := 0 |}.

(** [block.Contains(ip)] through the pointer. *)
Definition blockContains (ip : net.IP) (block : IPNetPtr) : outcome bool :=
  method block (fun b => net.Contains (snd b) ip).

Fixpoint isPrivateIP_loop (blocks : list IPNetPtr) (ip : net.IP) : outcome bool :=
  match blocks with
  | [] => Returns false
  | block :: rest =>
      inside ← blockContains ip block;
      if (inside : bool) then Returns true else isPrivateIP_loop rest ip
  end.

Definition isPrivateIP (g : Globals) (ip : net.IP) : outcome bool :=
  isPrivateIP_loop (privateIPBlocks g) ip.

(** The loop of [removeLocalhostFromPrivateIPBlock]: the last index whose
    pointer equals [localhost], starting from the zero value. *)
Fixpoint localhostIndex_loop (blocks : list IPNetPtr) (localhost : IPNetPtr)
    (i localhostIndex : nat) : nat :=
  match blocks with
  | [] => localhostIndex
  | block :: rest =>
      localhostIndex_loop rest localhost (S i)
        (if ptrEq block localhost then i else localhostIndex)
  end.

Definition removeLocalhostFromPrivateIPBlock (g : Globals)
    : outcome (IPNetPtr * Globals) :=
  let '(localhost, g) := parseCIDRBlock "127.0.0.0/8" g in
  let localhostIndex := localhostIndex_loop (privateIPBlocks g) localhost 0 0 in
  if (localhostIndex + 1 <=? length (privateIPBlocks g))%nat
  then Returns (localhost,
                {| privateIPBlocks := take localhostIndex (privateIPBlocks g)
                                      ++ drop (localhostIndex + 1) (privateIPBlocks g);
                   allocated := allocated g |})
  else Panics "runtime error: slice bounds out of range".

Definition unshiftPrivateIPBlock (address : IPNetPtr) (g : Globals) : Globals :=
  {| privateIPBlocks := [address] ++ privateIPBlocks g;
     allocated := allocated g |}.

(** ** Storage: operations, faults and transactions *)

(** A write sent to storage, named after the call that issues it, and the
    marks of a transaction's boundaries. *)
Inductive StorageOp : Type :=
| TxBegin
| TxCommit
| TxRollback
| OpSetRole
| OpConfirm
| OpConfirmPhone
| OpUpdatePassword
| OpSetEmail
| OpSetPhone
| OpUpdateAppMetaData
| OpUpdateUserMetaData
| OpUpdateBannedUntil
| OpNewAuditLogEntry (action : models.AuditAction)
| OpDestroy.

#[global] Instance AuditAction_eq_dec : EqDecision models.AuditAction.
Proof. solve_decision. Defined.

#[global] Instance StorageOp_eq_dec : EqDecision StorageOp.
Proof. solve_decision. Defined.

(** What a handler works on: the storage, the object the context's [user]
    pointer refers to (the methods of [models.User] update it in place),
    and the operations sent to storage so far, oldest first. *)
Record World : Type := {
  db : models.Store;
  user : models.User;
  issued : list StorageOp
}.

Inductive result (A : Type) : Type :=
| Ok (a : A)
| Err (e : error).
Arguments Ok {A} a.
Arguments Err {A} e.

(** A computation inside a transaction: it may stop with an error. *)
Definition Tx (A : Type) : Type := World -> result A * World.

(** [return nil] *)
Definition returnNil : Tx unit := fun w => (Ok tt, w).

(** [first] and, when it returns nil, [next]. *)
Definition andThen (first next : Tx unit) : Tx unit :=
  fun w =>
    match first w with
    | (Ok _, w') => next w'
    | (Err e, w') => (Err e, w')
    end.

Notation "first >> next" := (andThen first next)
  (at level 90, right associativity).

(** [return terr] *)
Definition fail {A : Type} (e : error) : Tx A := fun w => (Err e, w).

(** [if cond { body }] *)
Definition when (cond : bool) (body : Tx unit) : Tx unit :=
  if cond then body else returnNil.

Definition set_db (s : models.Store) (w : World) : World :=
  {| db := s; user := user w; issued := issued w |}.

Definition set_user (u : models.User) (w : World) : World :=
  {| db := db w; user := u; issued := issued w |}.

Definition record (op : StorageOp) (w : World) : World :=
  {| db := db w; user := user w; issued := issued w ++ [op] |}.

(** The in-place update [user.f = v]. *)
Definition assign (f : models.User -> models.User) : Tx unit :=
  fun w => (Ok tt, set_user (f (user w)) w).

Module params.

Record adminUserParams : Type := {
  Aud : string;
  Role : string;
  Email : string;
  Phone : string;
  Password : option string;
  EmailConfirm : bool;
  PhoneConfirm : bool;
  UserMetaData : option (gmap string string);
  AppMetaData : option (gmap string string);
  BanDuration : string
}.

End params.

Section Storage.
(** The environment: which storage operations fail, the clock, and the
    password hash. *)
Variable fails : StorageOp -> bool.
Variable now : time.Time.
Variable hashPassword : string -> string.

(** Modelled from the spec: a write either fails, changing nothing, or
    takes effect on the storage of the running transaction. *)
Definition exec (op : StorageOp) (effect : models.Store -> models.Store)
    : Tx unit :=
  fun w =>
    let w := record op w in
    if fails op then (Err (storage_Error "storage operation failed"), w)
    else (Ok tt, set_db (effect (db w)) w).

(** Modelled from the spec: the storage engine's transaction runs [fn]
    and commits its writes when [fn] returns nil; when [fn] returns an
    error every write is rolled back and the error is returned.  (The
    transaction implementation is a collaborator outside the sources.) *)
Definition Transaction (fn : Tx unit) (w : World) : option error * World :=
  match fn (record TxBegin w) with
  | (Ok _, w') => (None, record TxCommit w')
  | (Err e, w') => (Some e, record TxRollback (set_db (db w) w'))
  end.

(** *** Methods of [models.User] *)

Definition with_Role (v : string) (u : models.User) : models.User :=
  {| models.InstanceID := models.InstanceID u; models.ID := models.ID u;
     models.Aud := models.Aud u; models.Role := v;
     models.Email := models.Email u; models.Phone := models.Phone u;
     models.EncryptedPassword := models.EncryptedPassword u;
     models.EmailConfirmedAt := models.EmailConfirmedAt u;
     models.PhoneConfirmedAt := models.PhoneConfirmedAt u;
     models.AppMetaData := models.AppMetaData u;
     models.UserMetaData := models.UserMetaData u;
     models.IsSuperAdmin := models.IsSuperAdmin u;
     models.BannedUntil := models.BannedUntil u |}.

Definition with_Email (v : string) (u : models.User) : models.User :=
  {| models.InstanceID := models.InstanceID u; models.ID := models.ID u;
     models.Aud := models.Aud u; models.Role := models.Role u;
     models.Email := v; models.Phone := models.Phone u;
     models.EncryptedPassword := models.EncryptedPassword u;
     models.EmailConfirmedAt := models.EmailConfirmedAt u;
     models.PhoneConfirmedAt := models.PhoneConfirmedAt u;
     models.AppMetaData := models.AppMetaData u;
     models.UserMetaData := models.UserMetaData u;
     models.IsSuperAdmin := models.IsSuperAdmin u;
     models.BannedUntil := models.BannedUntil u |}.

Definition with_Phone (v : string) (u : models.User) : models.User :=
  {| models.InstanceID := models.InstanceID u; models.ID := models.ID u;
     models.Aud := models.Aud u; models.Role := models.Role u;
     models.Email := models.Email u; models.Phone := v;
     models.EncryptedPassword := models.EncryptedPassword u;
     models.EmailConfirmedAt := models.EmailConfirmedAt u;
     models.PhoneConfirmedAt := models.PhoneConfirmedAt u;
     models.AppMetaData := models.AppMetaData u;
     models.UserMetaData := models.UserMetaData u;
     models.IsSuperAdmin := models.IsSuperAdmin u;
     models.BannedUntil := models.BannedUntil u |}.

Definition with_EncryptedPassword (v : string) (u : models.User) : models.User :=
  {| models.InstanceID := models.InstanceID u; models.ID := models.ID u;
     models.Aud := models.Aud u; models.Role := models.Role u;
     models.Email := models.Email u; models.Phone := models.Phone u;
     models.EncryptedPassword := v;
     models.EmailConfirmedAt := models.EmailConfirmedAt u;
     models.PhoneConfirmedAt := models.PhoneConfirmedAt u;
     models.AppMetaData := models.AppMetaData u;
     models.UserMetaData := models.UserMetaData u;
     models.IsSuperAdmin := models.IsSuperAdmin u;
     models.BannedUntil := models.BannedUntil u |}.

Definition with_EmailConfirmedAt (v : option time.Time) (u : models.User)
    : models.User :=
  {| models.InstanceID := models.InstanceID u; models.ID := models.ID u;
     models.Aud := models.Aud u; models.Role := models.Role u;
     models.Email := models.Email u; models.Phone := models.Phone u;
     models.EncryptedPassword := models.EncryptedPassword u;
     models.EmailConfirmedAt := v;
     models.PhoneConfirmedAt := models.PhoneConfirmedAt u;
     models.AppMetaData := models.AppMetaData u;
     models.UserMetaData := models.UserMetaData u;
     models.IsSuperAdmin := models.IsSuperAdmin u;
     models.BannedUntil := models.BannedUntil u |}.

Definition with_PhoneConfirmedAt (v : option time.Time) (u : models.User)
    : models.User :=
  {| models.InstanceID := models.InstanceID u; models.ID := models.ID u;
     models.Aud := models.Aud u; models.Role := models.Role u;
     models.Email := models.Email u; models.Phone := models.Phone u;
     models.EncryptedPassword := models.EncryptedPassword u;
     models.EmailConfirmedAt := models.EmailConfirmedAt u;
     models.PhoneConfirmedAt := v;
     models.AppMetaData := models.AppMetaData u;
     models.UserMetaData := models.UserMetaData u;
     models.IsSuperAdmin := models.IsSuperAdmin u;
     models.BannedUntil := models.BannedUntil u |}.

Definition with_AppMetaData (v : gmap string string) (u : models.User)
    : models.User :=
  {| models.InstanceID := models.InstanceID u; models.ID := models.ID u;
     models.Aud := models.Aud u; models.Role := models.Role u;
     models.Email := models.Email u; models.Phone := models.Phone u;
     models.EncryptedPassword := models.EncryptedPassword u;
     models.EmailConfirmedAt := models.EmailConfirmedAt u;
     models.PhoneConfirmedAt := models.PhoneConfirmedAt u;
     models.AppMetaData := v;
     models.UserMetaData := models.UserMetaData u;
     models.IsSuperAdmin := models.IsSuperAdmin u;
     models.BannedUntil := models.BannedUntil u |}.

Definition with_UserMetaData (v : gmap string string) (u : models.User)
    : models.User :=
  {| models.InstanceID := models.InstanceID u; models.ID := models.ID u;
     models.Aud := models.Aud u; models.Role := models.Role u;
     models.Email := models.Email u; models.Phone := models.Phone u;
     models.EncryptedPassword := models.EncryptedPassword u;
     models.EmailConfirmedAt := models.EmailConfirmedAt u;
     models.PhoneConfirmedAt := models.PhoneConfirmedAt u;
     models.AppMetaData := models.AppMetaData u;
     models.UserMetaData := v;
     models.IsSuperAdmin := models.IsSuperAdmin u;
     models.BannedUntil := models.BannedUntil u |}.

(** [user.BannedUntil = v] *)
Definition with_BannedUntil (v : option time.Time) (u : models.User)
    : models.User :=
  {| models.InstanceID := models.InstanceID u; models.ID := models.ID u;
     models.Aud := models.Aud u; models.Role := models.Role u;
     models.Email := models.Email u; models.Phone := models.Phone u;
     models.EncryptedPassword := models.EncryptedPassword u;
     models.EmailConfirmedAt := models.EmailConfirmedAt u;
     models.PhoneConfirmedAt := models.PhoneConfirmedAt u;
     models.AppMetaData := models.AppMetaData u;
     models.UserMetaData := models.UserMetaData u;
     models.IsSuperAdmin := models.IsSuperAdmin u;
     models.BannedUntil := v |}.

(** Modelled from the spec: a method of [models.User] that changes a field
    sets it on the object and then writes the user's row; the write is the
    storage operation [op].  (The methods are defined in package [models],
    which is not among the sources.) *)
Definition persist (op : StorageOp) : Tx unit :=
  fun w =>
    exec op (fun s => {| models.Users := <[models.ID (user w) := user w]> (models.Users s);
                         models.AuditLog := models.AuditLog s |}) w.

Definition User_SetRole (roleName : string) : Tx unit :=
  assign (with_Role roleName)>> persist OpSetRole.

Definition User_Confirm : Tx unit :=
  assign (with_EmailConfirmedAt (Some now))>> persist OpConfirm.

Definition User_ConfirmPhone : Tx unit :=
  assign (with_PhoneConfirmedAt (Some now))>> persist OpConfirmPhone.

Definition User_UpdatePassword (password : string) : Tx unit :=
  assign (with_EncryptedPassword (hashPassword password))>>
  persist OpUpdatePassword.

Definition User_SetEmail (email : string) : Tx unit :=
  assign (with_Email email)>> persist OpSetEmail.

Definition User_SetPhone (phone : string) : Tx unit :=
  assign (with_Phone phone)>> persist OpSetPhone.

Definition User_UpdateAppMetaData (updates : gmap string string) : Tx unit :=
  assign (fun u => with_AppMetaData (updates ∪ models.AppMetaData u) u)>>
  persist OpUpdateAppMetaData.

Definition User_UpdateUserMetaData (updates : gmap string string) : Tx unit :=
  assign (fun u => with_UserMetaData (updates ∪ models.UserMetaData u) u)>>
  persist OpUpdateUserMetaData.

Definition User_UpdateBannedUntil : Tx unit := persist OpUpdateBannedUntil.

(** Modelled from the spec: [models.NewAuditLogEntry] inserts one entry
    with the actor, the action and the snapshot of the target user. *)
Definition NewAuditLogEntry (instanceID : uuid.UUID)
    (actor : option models.User) (action : models.AuditAction)
    (user_id : uuid.UUID) (user_email user_phone : string) : Tx unit :=
  exec (OpNewAuditLogEntry action)
    (fun s => {| models.Users := models.Users s;
                 models.AuditLog := models.AuditLog s ++
                   [{| models.entry_InstanceID := instanceID;
                       models.entry_Actor := actor;
                       models.entry_Action := action;
                       models.entry_user_id := user_id;
                       models.entry_user_email := user_email;
                       models.entry_user_phone := user_phone |}] |}).

(** Modelled from the spec: [tx.Destroy(user)] deletes the user's row. *)
Definition Destroy (u : models.User) : Tx unit :=
  exec OpDestroy
    (fun s => {| models.Users := delete (models.ID u) (models.Users s);
                 models.AuditLog := models.AuditLog s |}).

(** *** Errors of the API ([api/errors.go]) *)

#[global] Instance error_eq_dec : EqDecision error.
Proof. solve_decision. Defined.

Definition badRequestError (msg : string) : error := HTTPError 400 msg.
Definition unprocessableEntityError (msg : string) : error := HTTPError 422 msg.
Definition internalServerError (msg : string) : error := HTTPError 500 msg.

(** [err.Error()] *)
Fixpoint Error (e : error) : string :=
  match e with
  | errors_New msg => msg
  | url_Error op rawURL => op +:+ " " +:+ rawURL
  | UserNotFoundError => "User not found"
  | storage_Error what => what
  | HTTPError _ msg => msg
  | WithInternalError e _ => Error e
  end.

Definition invalidPasswordLengthError (config : conf.Configuration) : error :=
  unprocessableEntityError
    ("Password should be at least " +:+
     NilZero.string_of_int (Z.to_int (conf.PasswordMinLength config)) +:+
     " characters").

(** ** [api/admin.go]: update and delete *)
Context {T : time.Lib}.

(** The function passed to [a.db.Transaction] by [adminUserUpdate]. *)
Definition adminUserUpdate_fn (ctx : Context) (p : params.adminUserParams)
    : Tx unit :=
  let config := getConfig ctx in
  when (negb (String.eqb (params.Role p) ""))
    (User_SetRole (params.Role p))>>
  when (params.EmailConfirm p) User_Confirm>>
  when (params.PhoneConfirm p) User_ConfirmPhone>>
  match params.Password p with
  | Some password =>
      if Z.of_nat (String.length password) <? conf.PasswordMinLength config
      then fail (invalidPasswordLengthError config)
      else User_UpdatePassword password
  | None => returnNil
  end>>
  when (negb (String.eqb (params.Email p) ""))
    (User_SetEmail (params.Email p))>>
  when (negb (String.eqb (params.Phone p) ""))
    (User_SetPhone (params.Phone p))>>
  match params.AppMetaData p with
  | Some updates => User_UpdateAppMetaData updates
  | None => returnNil
  end>>
  match params.UserMetaData p with
  | Some updates => User_UpdateUserMetaData updates
  | None => returnNil
  end>>
  when (negb (String.eqb (params.BanDuration p) ""))
    ((if String.eqb (params.BanDuration p) "none"
      then assign (with_BannedUntil None)
      else match time.ParseDuration (params.BanDuration p) with
           | None =>
               fail (badRequestError
                       ("Invalid format for ban_duration: " +:+
                        "time: invalid duration " +:+ params.BanDuration p))
           | Some duration =>
               assign (with_BannedUntil (Some (time.Add now duration)))
           end)>>
     User_UpdateBannedUntil)>>
  (fun w =>
     NewAuditLogEntry (getInstanceID ctx) (getAdminUser ctx)
       models.UserModifiedAction
       (models.ID (user w)) (models.Email (user w)) (models.Phone (user w)) w).

(** [adminUserUpdate]: [decoded] is the result of [a.getAdminParams(r)];
    [Ok u] is the response that sends [u] as JSON. *)
Definition adminUserUpdate (ctx : Context)
    (decoded : result params.adminUserParams) (w : World)
    : result models.User * World :=
  let config := getConfig ctx in
  match decoded with
  | Err err => (Err err, w)
  | Ok p =>
      match Transaction (adminUserUpdate_fn ctx p) w with
      | (Some err, w') =>
          if decide (err = invalidPasswordLengthError config)
          then (Err err, w')
          else if strings.Contains (Error err) "Invalid format for ban_duration"
          then (Err err, w')
          else (Err (WithInternalError
                       (internalServerError "Error updating user") err), w')
      | (None, w') => (Ok (user w'), w')
      end
  end.

(** The function passed to [a.db.Transaction] by [adminUserDelete]. *)
Definition adminUserDelete_fn (ctx : Context) : Tx unit :=
  fun w =>
    match NewAuditLogEntry (getInstanceID ctx) (getAdminUser ctx)
            models.UserDeletedAction
            (models.ID (user w)) (models.Email (user w))
            (models.Phone (user w)) w with
    | (Err terr, w') =>
        (Err (WithInternalError
                (internalServerError "Error recording audit log entry") terr),
         w')
    | (Ok _, w') =>
        match Destroy (user w') w' with
        | (Err terr, w'') =>
            (Err (WithInternalError
                    (internalServerError "Database error deleting user") terr),
             w'')
        | (Ok _, w'') => (Ok tt, w'')
        end
    end.

(** [adminUserDelete]: [Ok tt] is the response that sends the empty JSON
    object. *)
Definition adminUserDelete (ctx : Context) (w : World) : result unit * World :=
  match Transaction (adminUserDelete_fn ctx) w with
  | (Some err, w') => (Err err, w')
  | (None, w') => (Ok tt, w')
  end.

End Storage.

(** ** A model of the library [net/url]

    The functions below follow the library's [Parse], [String] and
    [Hostname] (Go 1.17): scheme, query, opaque part, authority with user
    information, host and port, path and fragment, with the library's
    percent-decoding and its escaping rules.  Every parse error is [None];
    the message of the error is not kept. *)
Module GoURL.

Inductive encoding : Type :=
| encodePath
| encodePathSegment
| encodeHost
| encodeZone
| encodeUserPassword
| encodeQueryComponent
| encodeFragment.

Definition code (c : ascii) : Z := Z.of_N (N_of_ascii c).

Definition byte (n : Z) : ascii := ascii_of_N (Z.to_N n).

(** The double quote, 0x22. *)
Definition dquote : ascii := byte 34.

Fixpoint inString (c : ascii) (s : string) : bool :=
  match s with
  | EmptyString => false
  | String d s' => Ascii.eqb c d || inString c s'
  end.

Definition between (lo hi : Z) (c : ascii) : bool :=
  (lo <=? code c) && (code c <=? hi).

Definition isLetter (c : ascii) : bool := between 97 122 c || between 65 90 c.
Definition isDigit (c : ascii) : bool := between 48 57 c.

Definition isHostMode (mode : encoding) : bool :=
  match mode with
  | encodeHost | encodeZone => true
  | _ => false
  end.

Definition shouldEscape (c : ascii) (mode : encoding) : bool :=
  if isLetter c || isDigit c then false
  else if isHostMode mode
          && (inString c "!$&'()*+,;=:[]<>" || Ascii.eqb c dquote)
  then false
  else if inString c "-_.~" then false
  else if inString c "$&+,/:;=?@" then
    match mode with
    | encodePath => Ascii.eqb c "?"
    | encodePathSegment => inString c "/;,?"
    | encodeUserPassword => inString c "@/?:"
    | encodeQueryComponent => true
    | encodeFragment => false
    | encodeHost | encodeZone => true
    end
  else match mode with
       | encodeFragment => negb (inString c "!()*")
       | _ => true
       end.

Definition unhex (c : ascii) : option Z := net.hexValue c.

Definition upperhex (n : Z) : ascii :=
  if n <? 10 then byte (48 + n) else byte (65 + (n - 10)).

Fixpoint unescape (mode : encoding) (s : string) : option string :=
  match s with
  | EmptyString => Some EmptyString
  | String c s1 =>
      if Ascii.eqb c "%" then
        match s1 with
        | String h1 (String h2 s2) =>
            match unhex h1, unhex h2 with
            | Some a, Some b =>
                let v := byte (a * 16 + b) in
                let is25 := (a =? 2) && (b =? 5) in
                if match mode with
                   | encodeHost => (a <? 8) && negb is25
                   | encodeZone =>
                       negb is25 && negb (Ascii.eqb v " ")
                       && shouldEscape v encodeHost
                   | _ => false
                   end
                then None
                else option_map (String v) (unescape mode s2)
            | _, _ => None
            end
        | _ => None
        end
      else if Ascii.eqb c "+" then
        option_map
          (String (match mode with encodeQueryComponent => " "%char | _ => c end))
          (unescape mode s1)
      else if isHostMode mode && (code c <? 128) && shouldEscape c encodeHost
      then None
      else option_map (String c) (unescape mode s1)
  end.

Fixpoint escape (s : string) (mode : encoding) : string :=
  match s with
  | EmptyString => EmptyString
  | String c s' =>
      if shouldEscape c mode then
        match mode with
        | encodeQueryComponent =>
            if Ascii.eqb c " " then String "+" (escape s' mode)
            else String "%" (String (upperhex (code c / 16))
                   (String (upperhex (code c mod 16)) (escape s' mode)))
        | _ => String "%" (String (upperhex (code c / 16))
                 (String (upperhex (code c mod 16)) (escape s' mode)))
        end
      else String c (escape s' mode)
  end.

Fixpoint validEncoded (s : string) (mode : encoding) : bool :=
  match s with
  | EmptyString => true
  | String c s' =>
      (inString c "!$&'()*+,;=:@[]%" || negb (shouldEscape c mode))
      && validEncoded s' mode
  end.

Fixpoint stringContainsCTLByte (s : string) : bool :=
  match s with
  | EmptyString => false
  | String c s' => (code c <? 32) || (code c =? 127) || stringContainsCTLByte s'
  end.

(** [strings.Cut(s, sep)] for a one-byte separator. *)
Fixpoint Cut (s : string) (sep : ascii) : string * string * bool :=
  match s with
  | EmptyString => (EmptyString, EmptyString, false)
  | String c s' =>
      if Ascii.eqb c sep then (EmptyString, s', true)
      else let '(before, after, found) := Cut s' sep in
           (String c before, if found then after else EmptyString, found)
  end.

(** [strings.LastIndex(s, sep)] for a one-byte separator. *)
Fixpoint LastIndex (s : string) (sep : ascii) : option nat :=
  match s with
  | EmptyString => None
  | String c s' =>
      match LastIndex s' sep with
      | Some i => Some (S i)
      | None => if Ascii.eqb c sep then Some O else None
      end
  end.

Fixpoint Count (s : string) (sep : ascii) : nat :=
  match s with
  | EmptyString => O
  | String c s' => ((if Ascii.eqb c sep then 1 else 0) + Count s' sep)%nat
  end.

Definition from (i : nat) (s : string) : string :=
  String.substring i (String.length s - i) s.

Definition upto (i : nat) (s : string) : string := String.substring 0 i s.

Definition lower (c : ascii) : ascii :=
  if between 65 90 c then byte (code c + 32) else c.

Fixpoint ToLower (s : string) : string :=
  match s with
  | EmptyString => EmptyString
  | String c s' => String (lower c) (ToLower s')
  end.

(** [getScheme]: the scheme and the rest, or an error. *)
Fixpoint getScheme_loop (rawURL s : string) (i : nat)
    : option (string * string) :=
  match s with
  | EmptyString => Some (EmptyString, rawURL)
  | String c s' =>
      if isLetter c then getScheme_loop rawURL s' (S i)
      else if isDigit c || inString c "+-." then
        if (i =? 0)%nat then Some (EmptyString, rawURL)
        else getScheme_loop rawURL s' (S i)
      else if Ascii.eqb c ":" then
        if (i =? 0)%nat then None
        else Some (upto i rawURL, s')
      else Some (EmptyString, rawURL)
  end.

Definition getScheme (rawURL : string) : option (string * string) :=
  getScheme_loop rawURL rawURL 0.

Fixpoint allDigits (s : string) : bool :=
  match s with
  | EmptyString => true
  | String c s' => isDigit c && allDigits s'
  end.

Definition validOptionalPort (port : string) : bool :=
  match port with
  | EmptyString => true
  | String c digits => Ascii.eqb c ":" && allDigits digits
  end.

Fixpoint validUserinfo (s : string) : bool :=
  match s with
  | EmptyString => true
  | String c s' =>
      (isLetter c || isDigit c || inString c "-._:~!$&'()*+,;=%@")
      && validUserinfo s'
  end.

Definition parseHost (host : string) : option string :=
  if String.prefix "[" host then
    match LastIndex host "]" with
    | None => None
    | Some i =>
        if negb (validOptionalPort (from (i + 1) host)) then None
        else match String.index 0 "%25" (upto i host) with
             | Some zone =>
                 match unescape encodeHost (upto zone host),
                       unescape encodeZone (String.substring zone (i - zone) host),
                       unescape encodeHost (from i host) with
                 | Some host1, Some host2, Some host3 =>
                     Some (host1 +:+ host2 +:+ host3)
                 | _, _, _ => None
                 end
             | None => unescape encodeHost host
             end
    end
  else
    match LastIndex host ":" with
    | Some i =>
        if negb (validOptionalPort (from i host)) then None
        else unescape encodeHost host
    | None => unescape encodeHost host
    end.

Definition parseAuthority (authority : string)
    : option (option url.Userinfo * string) :=
  match LastIndex authority "@" with
  | None =>
      match parseHost authority with
      | Some host => Some (None, host)
      | None => None
      end
  | Some i =>
      match parseHost (from (i + 1) authority) with
      | None => None
      | Some host =>
          let userinfo := upto i authority in
          if negb (validUserinfo userinfo) then None
          else if negb (inString ":" userinfo) then
            match unescape encodeUserPassword userinfo with
            | Some name =>
                Some (Some {| url.username := name; url.password := "";
                              url.passwordSet := false |}, host)
            | None => None
            end
          else
            let '(name, pass, _) := Cut userinfo ":" in
            match unescape encodeUserPassword name,
                  unescape encodeUserPassword pass with
            | Some name, Some pass =>
                Some (Some {| url.username := name; url.password := pass;
                              url.passwordSet := true |}, host)
            | _, _ => None
            end
      end
  end.

(** [parse(rawURL, false)], the part of [Parse] before the fragment. *)
Definition parse (rawURL : string) : option url.URL :=
  let blank (scheme : string) :=
    {| url.Scheme := scheme; url.Opaque := ""; url.User := None;
       url.Host := ""; url.Path := ""; url.RawPath := "";
       url.ForceQuery := false; url.RawQuery := "";
       url.Fragment := ""; url.RawFragment := "" |} in
  if stringContainsCTLByte rawURL then None
  else if String.eqb rawURL "*" then Some (url.set_Path "*" (blank ""))
  else
    match getScheme rawURL with
    | None => None
    | Some (scheme, rest) =>
        let scheme := ToLower scheme in
        let '(rest, rawQuery, forceQuery) :=
          if strings.HasSuffix rest "?" && (Count rest "?" =? 1)%nat
          then (upto (String.length rest - 1) rest, EmptyString, true)
          else let '(before, after, _) := Cut rest "?" in (before, after, false) in
        let withQuery (u : url.URL) :=
          {| url.Scheme := url.Scheme u; url.Opaque := url.Opaque u;
             url.User := url.User u; url.Host := url.Host u;
             url.Path := url.Path u; url.RawPath := url.RawPath u;
             url.ForceQuery := forceQuery; url.RawQuery := rawQuery;
             url.Fragment := ""; url.RawFragment := "" |} in
        let opaque := negb (String.prefix "/" rest) && negb (String.eqb scheme "") in
        let colonInFirstSegment :=
          negb (String.prefix "/" rest) && String.eqb scheme ""
          && inString ":" (fst (fst (Cut rest "/"))) in
        if opaque then
          Some (withQuery
                  {| url.Scheme := scheme; url.Opaque := rest; url.User := None;
                     url.Host := ""; url.Path := ""; url.RawPath := "";
                     url.ForceQuery := false; url.RawQuery := "";
                     url.Fragment := ""; url.RawFragment := "" |})
        else if colonInFirstSegment then None
        else
          let authorityAndRest :=
            if (negb (String.eqb scheme "") || negb (String.prefix "///" rest))
               && String.prefix "//" rest
            then
              let '(authority, path, found) := Cut (from 2 rest) "/" in
              let path := if found then String "/" path else EmptyString in
              match parseAuthority authority with
              | Some (user, host) => Some (user, host, path)
              | None => None
              end
            else Some (None, EmptyString, rest) in
          match authorityAndRest with
          | None => None
          | Some (user, host, rest) =>
              match unescape encodePath rest with
              | None => None
              | Some path =>
                  Some (withQuery
                          {| url.Scheme := scheme; url.Opaque := "";
                             url.User := user; url.Host := host;
                             url.Path := path;
                             url.RawPath :=
                               if String.eqb rest (escape path encodePath)
                               then EmptyString else rest;
                             url.ForceQuery := false; url.RawQuery := "";
                             url.Fragment := ""; url.RawFragment := "" |})
              end
          end
    end.

Definition Parse (rawURL : string) : option url.URL :=
  let '(u, frag, _) := Cut rawURL "#" in
  match parse u with
  | None => None
  | Some parsed =>
      if String.eqb frag "" then Some parsed
      else match unescape encodeFragment frag with
           | None => None
           | Some fragment =>
               Some {| url.Scheme := url.Scheme parsed;
                       url.Opaque := url.Opaque parsed;
                       url.User := url.User parsed;
                       url.Host := url.Host parsed;
                       url.Path := url.Path parsed;
                       url.RawPath := url.RawPath parsed;
                       url.ForceQuery := url.ForceQuery parsed;
                       url.RawQuery := url.RawQuery parsed;
                       url.Fragment := fragment;
                       url.RawFragment :=
                         if String.eqb frag (escape fragment encodeFragment)
                         then EmptyString else frag |}
           end
  end.

Definition EscapedPath (u : url.URL) : string :=
  if negb (String.eqb (url.RawPath u) "")
     && validEncoded (url.RawPath u) encodePath
     && match unescape encodePath (url.RawPath u) with
        | Some p => String.eqb p (url.Path u)
        | None => false
        end
  then url.RawPath u
  else if String.eqb (url.Path u) "*" then "*"
  else escape (url.Path u) encodePath.

Definition EscapedFragment (u : url.URL) : string :=
  if negb (String.eqb (url.RawFragment u) "")
     && validEncoded (url.RawFragment u) encodeFragment
     && match unescape encodeFragment (url.RawFragment u) with
        | Some f => String.eqb f (url.Fragment u)
        | None => false
        end
  then url.RawFragment u
  else escape (url.Fragment u) encodeFragment.

Definition Userinfo_String (ui : url.Userinfo) : string :=
  escape (url.username ui) encodeUserPassword +:+
  (if url.passwordSet ui
   then ":" +:+ escape (url.password ui) encodeUserPassword
   else "").

Definition String (u : url.URL) : string :=
  let scheme :=
    if String.eqb (url.Scheme u) "" then "" else url.Scheme u +:+ ":" in
  let body :=
    if negb (String.eqb (url.Opaque u) "") then scheme +:+ url.Opaque u
    else
      let authority :=
        if negb (String.eqb (url.Scheme u) "")
           || negb (String.eqb (url.Host u) "") || negb (isNil (url.User u))
        then
          (if negb (String.eqb (url.Host u) "")
              || negb (String.eqb (url.Path u) "") || negb (isNil (url.User u))
           then "//" else "") +:+
          match url.User u with
          | Some ui => Userinfo_String ui +:+ "@"
          | None => ""
          end +:+
          (if String.eqb (url.Host u) "" then ""
           else escape (url.Host u) encodeHost)
        else "" in
      let buf := scheme +:+ authority in
      let path := EscapedPath u in
      let buf :=
        if negb (String.eqb path "") && negb (String.prefix "/" path)
           && negb (String.eqb (url.Host u) "")
        then buf +:+ "/" else buf in
      let buf :=
        if String.eqb buf "" && inString ":" (fst (fst (Cut path "/")))
        then "./" else buf in
      buf +:+ path in
  let query :=
    if url.ForceQuery u || negb (String.eqb (url.RawQuery u) "")
    then "?" +:+ url.RawQuery u else "" in
  let fragment :=
    if String.eqb (url.Fragment u) "" then ""
    else "#" +:+ EscapedFragment u in
  body +:+ query +:+ fragment.

Definition Hostname (u : url.URL) : string :=
  let hostPort := url.Host u in
  let host :=
    match LastIndex hostPort ":" with
    | Some colon =>
        if validOptionalPort (from colon hostPort) then upto colon hostPort
        else hostPort
    | None => hostPort
    end in
  if String.prefix "[" host && strings.HasSuffix host "]"
  then String.substring 1 (String.length host - 2) host
  else host.

#[global] Instance lib : url.Lib :=
  {| url.Parse := Parse; url.String := String; url.Hostname := Hostname |}.

End GoURL.

(** ** A model of the glob library

    Patterns made of literal bytes, [?] (one byte that is no separator),
    [*] (any run of bytes that are no separators) and [**] (any run of
    bytes).  Character classes, alternatives and escapes are outside the
    model. *)
Module GoGlob.

Inductive token : Type :=
| Literal (c : ascii)
| AnyOne
| AnyRun
| AnyRunAcross.

Fixpoint tokens (pattern : string) : list token :=
  match pattern with
  | EmptyString => []
  | String c rest =>
      if Ascii.eqb c "?" then AnyOne :: tokens rest
      else if Ascii.eqb c "*" then
        match rest with
        | String d rest' =>
            if Ascii.eqb d "*" then AnyRunAcross :: tokens rest'
            else AnyRun :: tokens rest
        | EmptyString => [AnyRun]
        end
      else Literal c :: tokens rest
  end.

Fixpoint matches (separators : string) (p : list token) : string -> bool :=
  match p with
  | [] => fun s => String.eqb s ""
  | Literal c :: p' => fun s =>
      match s with
      | String d s' => Ascii.eqb c d && matches separators p' s'
      | EmptyString => false
      end
  | AnyOne :: p' => fun s =>
      match s with
      | String d s' =>
          negb (GoURL.inString d separators) && matches separators p' s'
      | EmptyString => false
      end
  | AnyRun :: p' =>
      fix run (s : string) : bool :=
        matches separators p' s
        || match s with
           | String d s' => negb (GoURL.inString d separators) && run s'
           | EmptyString => false
           end
  | AnyRunAcross :: p' =>
      fix run (s : string) : bool :=
        matches separators p' s
        || match s with
           | String _ s' => run s'
           | EmptyString => false
           end
  end.

(** [glob.MustCompile(pattern, separators...)] *)
Definition MustCompile (pattern separators : string) : Glob :=
  {| Match := matches separators (tokens pattern) |}.

End GoGlob.

(** Modelled from the spec: the allow-list map pairs each configured URI
    with the glob compiled from it, with [.] and [/] as separators (the
    map is built in package [conf], which is not among the sources). *)
Definition allowListMap (uris : list string) : gmap string Glob :=
  list_to_map (map (fun uri => (uri, GoGlob.MustCompile uri "./")) uris).

(** ** A model of [time.ParseDuration]

    The grammar, the units and the overflow checks are the library's.
    The library adds a fractional part with [float64] arithmetic; the
    model computes it exactly and rounds down. *)
Module GoTime.

Definition isDigit (c : ascii) : bool := GoURL.isDigit c.

Definition limit : Z := 2 ^ 63.

(** [leadingInt]: the leading digits and the rest; [None] on overflow. *)
Fixpoint leadingInt (x : Z) (s : string) : option (Z * string) :=
  match s with
  | EmptyString => Some (x, s)
  | String c s' =>
      if negb (isDigit c) then Some (x, s)
      else if limit / 10 <? x then None
      else let x := x * 10 + (GoURL.code c - 48) in
           if limit <? x then None else leadingInt x s'
  end.

(** [leadingFraction]: the digits read, their scale, and the rest. *)
Fixpoint leadingFraction (x scale : Z) (overflow : bool) (s : string)
    : Z * Z * string :=
  match s with
  | EmptyString => (x, scale, s)
  | String c s' =>
      if negb (isDigit c) then (x, scale, s)
      else if overflow then leadingFraction x scale true s'
      else if (limit - 1) / 10 <? x then leadingFraction x scale true s'
      else let y := x * 10 + (GoURL.code c - 48) in
           if limit <? y then leadingFraction x scale true s'
           else leadingFraction y (scale * 10) false s'
  end.

(** The bytes of the unit up to the next digit or period. *)
Fixpoint unitOf (s : string) : string * string :=
  match s with
  | EmptyString => (EmptyString, EmptyString)
  | String c s' =>
      if Ascii.eqb c "." || isDigit c then (EmptyString, s)
      else let '(u, rest) := unitOf s' in (String c u, rest)
  end.

Definition microLatin : string :=
  String (GoURL.byte 194) (String (GoURL.byte 181) "s").
Definition microGreek : string :=
  String (GoURL.byte 206) (String (GoURL.byte 188) "s").

Definition unitMap (u : string) : option Z :=
  if String.eqb u "ns" then Some 1
  else if String.eqb u "us" || String.eqb u microLatin || String.eqb u microGreek
  then Some 1000
  else if String.eqb u "ms" then Some 1000000
  else if String.eqb u "s" then Some 1000000000
  else if String.eqb u "m" then Some 60000000000
  else if String.eqb u "h" then Some 3600000000000
  else None.

(** The loop over the components of a duration; each turn reads at
    least one byte, so the length of the input bounds the turns. *)
Fixpoint components (turns : nat) (d : Z) (s : string) : option Z :=
  match turns with
  | O => if String.eqb s "" then Some d else None
  | S turns' =>
      match s with
      | EmptyString => Some d
      | String c _ =>
          if negb (Ascii.eqb c "." || isDigit c) then None
          else
            match leadingInt 0 s with
            | None => None
            | Some (v, s1) =>
                let pre := negb (String.length s1 =? String.length s)%nat in
                let '(f, scale, s2, post) :=
                  match s1 with
                  | String p s1' =>
                      if Ascii.eqb p "." then
                        let '(f, scale, s2) := leadingFraction 0 1 false s1' in
                        (f, scale, s2,
                         negb (String.length s2 =? String.length s1')%nat)
                      else (0, 1, s1, false)
                  | EmptyString => (0, 1, s1, false)
                  end in
                if negb pre && negb post then None
                else
                  let '(u, s3) := unitOf s2 in
                  if String.eqb u "" then None
                  else match unitMap u with
                       | None => None
                       | Some unit =>
                           if limit / unit <? v then None
                           else
                             let v := v * unit in
                             let v := if 0 <? f then v + f * unit / scale else v in
                             if limit <? v then None
                             else let d := d + v in
                                  if limit <? d then None
                                  else components turns' d s3
                       end
            end
      end
  end.

Definition ParseDuration (s : string) : option time.Duration :=
  let '(neg, s) :=
    match s with
    | String c s' =>
        if Ascii.eqb c "-" then (true, s')
        else if Ascii.eqb c "+" then (false, s')
        else (false, s)
    | EmptyString => (false, s)
    end in
  if String.eqb s "0" then Some 0
  else if String.eqb s "" then None
  else match components (String.length s) 0 s with
       | None => None
       | Some d =>
           if neg then Some (- d)
           else if limit - 1 <? d then None
           else Some d
       end.

#[global] Instance lib : time.Lib := {| time.ParseDuration := ParseDuration |}.

End GoTime.

(** ** A model of the UUID library

    [FromString] reads the canonical form, the form without hyphens, and
    either of them in braces or after [urn:uuid:]; [String] writes the
    canonical form. *)
Module GoUUID.

Fixpoint hexDigits (acc : N) (s : string) : option N :=
  match s with
  | EmptyString => Some acc
  | String c s' =>
      match net.hexValue c with
      | Some v => hexDigits (acc * 16 + Z.to_N v)%N s'
      | None => None
      end
  end.

Definition decodeHashLike (t : string) : option uuid.UUID :=
  if (String.length t =? 32)%nat then hexDigits 0%N t else None.

Definition decodeCanonical (t : string) : option uuid.UUID :=
  if (String.length t =? 36)%nat
     && String.eqb (String.substring 8 1 t) "-"
     && String.eqb (String.substring 13 1 t) "-"
     && String.eqb (String.substring 18 1 t) "-"
     && String.eqb (String.substring 23 1 t) "-"
  then hexDigits 0%N
         (String.substring 0 8 t +:+ String.substring 9 4 t +:+
          String.substring 14 4 t +:+ String.substring 19 4 t +:+
          String.substring 24 12 t)
  else None.

Definition decodePlain (t : string) : option uuid.UUID :=
  if (String.length t =? 32)%nat then decodeHashLike t
  else if (String.length t =? 36)%nat then decodeCanonical t
  else None.

Definition FromString (t : string) : option uuid.UUID :=
  let l := String.length t in
  if (l =? 32)%nat then decodeHashLike t
  else if (l =? 36)%nat then decodeCanonical t
  else if (l =? 34)%nat || (l =? 38)%nat then
    if String.prefix "{" t && strings.HasSuffix t "}"
    then decodePlain (String.substring 1 (l - 2) t) else None
  else if (l =? 41)%nat || (l =? 45)%nat then
    if String.prefix "urn:uuid:" t then decodePlain (GoURL.from 9 t) else None
  else None.

Definition lowerhex (n : N) : ascii :=
  if (n <? 10)%N then ascii_of_N (48 + n) else ascii_of_N (97 + (n - 10)).

(** The [digits] lowest hexadecimal digits of [n], highest first. *)
Fixpoint hex (digits : nat) (n : N) (tail : string) : string :=
  match digits with
  | O => tail
  | S digits' => hex digits' (n / 16)%N (String (lowerhex (n mod 16)%N) tail)
  end.

Definition String (u : uuid.UUID) : string :=
  let h := hex 32 u "" in
  String.substring 0 8 h +:+ "-" +:+ String.substring 8 4 h +:+ "-" +:+
  String.substring 12 4 h +:+ "-" +:+ String.substring 16 4 h +:+ "-" +:+
  String.substring 20 12 h.

#[global] Instance lib : uuid.Lib :=
  {| uuid.FromString := FromString; uuid.String := String |}.

End GoUUID.

(** ** The properties, as the specification words them *)

Section RedirectContract.
Context {L : url.Lib}.

(** The candidate and the site URL both parse and have the same
    hostname. *)
Definition sameHostname (config : conf.Configuration) (candidate : string)
    : Prop :=
  exists base refurl,
    fst (parseURL (conf.SiteURL config)) = Some base /\
    fst (parseURL candidate) = Some refurl /\
    url.Hostname base = url.Hostname refurl.

(** The candidate matches the allow-list entry [uri] with matcher [g]: an
    entry that begins with http (or https) is matched as a glob against
    the normalized candidate; any other entry must equal the raw
    candidate. *)
Definition matchesEntry (candidate uri : string) (g : Glob) : Prop :=
  if strings.HasPrefix uri "http" || strings.HasPrefix uri "https"
  then exists refurl,
         fst (parseURL candidate) = Some refurl /\
         Match g (url.String refurl) = true
  else candidate = uri.

(** The contract of the redirect validation. *)
Definition validRedirect (config : conf.Configuration) (candidate : string)
    : Prop :=
  candidate <> "" /\
  (sameHostname config candidate \/
   exists uri g,
     conf.URIAllowListMap config !! uri = Some g /\
     matchesEntry candidate uri g).

End RedirectContract.

Section UpdateContract.
Context {T : time.Lib}.
Variable fails : StorageOp -> bool.
Variable now : time.Time.
Variable hashPassword : string -> string.

(** The storage operations an update request asks for, in the order of
    the handler; the audit insert comes last. *)
Definition requestedOps (p : params.adminUserParams) : list StorageOp :=
  (if String.eqb (params.Role p) "" then [] else [OpSetRole]) ++
  (if params.EmailConfirm p then [OpConfirm] else []) ++
  (if params.PhoneConfirm p then [OpConfirmPhone] else []) ++
  (if isNil (params.Password p) then [] else [OpUpdatePassword]) ++
  (if String.eqb (params.Email p) "" then [] else [OpSetEmail]) ++
  (if String.eqb (params.Phone p) "" then [] else [OpSetPhone]) ++
  (if isNil (params.AppMetaData p) then [] else [OpUpdateAppMetaData]) ++
  (if isNil (params.UserMetaData p) then [] else [OpUpdateUserMetaData]) ++
  (if String.eqb (params.BanDuration p) "" then [] else [OpUpdateBannedUntil]) ++
  [OpNewAuditLogEntry models.UserModifiedAction].

(** The password, when one is given, has the configured minimum length. *)
Definition passwordAccepted (config : conf.Configuration)
    (p : params.adminUserParams) : bool :=
  match params.Password p with
  | Some password =>
      negb (Z.of_nat (String.length password) <? conf.PasswordMinLength config)
  | None => true
  end.

(** The ban duration, when one is given, is [none] or parses. *)
Definition banDurationAccepted (p : params.adminUserParams) : bool :=
  String.eqb (params.BanDuration p) ""
  || String.eqb (params.BanDuration p) "none"
  || negb (isNil (time.ParseDuration (params.BanDuration p))).

(** Every requested sub-mutation succeeds. *)
Definition everySubMutationSucceeds (config : conf.Configuration)
    (p : params.adminUserParams) : bool :=
  forallb (fun op => negb (fails op)) (requestedOps p)
  && passwordAccepted config p
  && banDurationAccepted p.

(** The ban expiry an update request asks for. *)
Definition requestedBan (p : params.adminUserParams)
    (current : option time.Time) : option time.Time :=
  if String.eqb (params.BanDuration p) "" then current
  else if String.eqb (params.BanDuration p) "none" then None
  else match time.ParseDuration (params.BanDuration p) with
       | Some duration => Some (time.Add now duration)
       | None => current
       end.

(** The user record with every requested change applied. *)
Definition updatedUser (p : params.adminUserParams) (u : models.User)
    : models.User :=
  {| models.InstanceID := models.InstanceID u;
     models.ID := models.ID u;
     models.Aud := models.Aud u;
     models.Role :=
       if String.eqb (params.Role p) "" then models.Role u else params.Role p;
     models.Email :=
       if String.eqb (params.Email p) "" then models.Email u else params.Email p;
     models.Phone :=
       if String.eqb (params.Phone p) "" then models.Phone u else params.Phone p;
     models.EncryptedPassword :=
       match params.Password p with
       | Some password => hashPassword password
       | None => models.EncryptedPassword u
       end;
     models.EmailConfirmedAt :=
       if params.EmailConfirm p then Some now else models.EmailConfirmedAt u;
     models.PhoneConfirmedAt :=
       if params.PhoneConfirm p then Some now else models.PhoneConfirmedAt u;
     models.AppMetaData :=
       match params.AppMetaData p with
       | Some updates => updates ∪ models.AppMetaData u
       | None => models.AppMetaData u
       end;
     models.UserMetaData :=
       match params.UserMetaData p with
       | Some updates => updates ∪ models.UserMetaData u
       | None => models.UserMetaData u
       end;
     models.IsSuperAdmin := models.IsSuperAdmin u;
     models.BannedUntil := requestedBan p (models.BannedUntil u) |}.

End UpdateContract.

(** The audit entry a handler writes about the user [u]. *)
Definition auditEntry (ctx : Context) (action : models.AuditAction)
    (u : models.User) : models.AuditLogEntry :=
  {| models.entry_InstanceID := getInstanceID ctx;
     models.entry_Actor := getAdminUser ctx;
     models.entry_Action := action;
     models.entry_user_id := models.ID u;
     models.entry_user_email := models.Email u;
     models.entry_user_phone := models.Phone u |}.

(** ** Sample configurations, requests and users *)

Definition sampleJWT : conf.JWTConfiguration :=
  {| conf.Aud := "authenticated"; conf.AdminGroupName := "admin";
     conf.DefaultGroupName := "user" |}.

(** A tenant whose site is [https://trusted.example], with the given
    redirect allow list. *)
Definition siteConfig (uris : list string) : conf.Configuration :=
  {| conf.SiteURL := "https://trusted.example";
     conf.URIAllowListMap := allowListMap uris;
     conf.JWT := sampleJWT;
     conf.PasswordMinLength := 6 |}.

Definition sampleContext (uris : list string) : Context :=
  {| getClaims := None; getInstanceID := 0%N;
     getConfig := siteConfig uris; getAdminUser := None |}.

(** A request with the given [redirect_to] header and referrer, and no
    form values. *)
Definition sampleRequest (uris : list string) (redirect_to referer : string)
    : Request :=
  {| Header_Get := fun key =>
       if String.eqb key "redirect_to" then redirect_to
       else if String.eqb key "Referer" then referer
       else "";
     ParseForm := None;
     Form_Get := fun _ => "";
     Request_Context := sampleContext uris |}.

(** The addresses of the block-list examples, parsed. *)
Definition parsedIP (s : string) : net.IP :=
  match net.ParseIP s with
  | Some ip => ip
  | None => []
  end.

(** A custom range to block, [203.0.113.0/24], allocated at [address]. *)
Definition customBlock (address : nat) : IPNetPtr :=
  match net.ParseCIDR "203.0.113.0/24" with
  | Some n => Some (address, n)
  | None => None
  end.

(** The initial block list after the range 203.0.113.0/24 was parsed and
    put at its head. *)
Definition customFirst : Globals :=
  let '(block, g) := parseCIDRBlock "203.0.113.0/24" init in
  unshiftPrivateIPBlock block g.

(** A user of tenant 0 with the identifier
    [6ba7b810-9dad-11d1-80b4-00c04fd430c8], and a storage that holds it. *)
Definition sampleUserID : uuid.UUID :=
  143098242404177361603877621312831893704%N.

Definition sampleUser : models.User :=
  {| models.InstanceID := 0%N; models.ID := sampleUserID;
     models.Aud := "authenticated"; models.Role := "user";
     models.Email := "ada@example.com"; models.Phone := "";
     models.EncryptedPassword := "hash";
     models.EmailConfirmedAt := None; models.PhoneConfirmedAt := None;
     models.AppMetaData := ∅; models.UserMetaData := ∅;
     models.IsSuperAdmin := false; models.BannedUntil := None |}.

Definition sampleStore : models.Store :=
  {| models.Users := {[ sampleUserID := sampleUser ]};
     models.AuditLog := [] |}.

(** A context whose token has the given subject, for the audience
    [authenticated] and tenant 0. *)
Definition contextOf (subject : string) : Context :=
  {| getClaims := Some {| models.Subject := subject;
                          models.Audience := "authenticated" |};
     getInstanceID := 0%N;
     getConfig := siteConfig [];
     getAdminUser := None |}.

(** A world whose storage holds [sampleUser], the target of the request. *)
Definition sampleWorld : World :=
  {| db := sampleStore; user := sampleUser; issued := [] |}.

(** An update request that changes nothing but the ban duration. *)
Definition banRequest (duration : string) : params.adminUserParams :=
  {| params.Aud := ""; params.Role := ""; params.Email := "";
     params.Phone := ""; params.Password := None;
     params.EmailConfirm := false; params.PhoneConfirm := false;
     params.UserMetaData := None; params.AppMetaData := None;
     params.BanDuration := duration |}.

(** No storage operation fails. *)
Definition noFaults (op : StorageOp) : bool := false.

(** Only the audit insert of a deletion fails. *)
Definition auditFault (op : StorageOp) : bool :=
  bool_decide (op = OpNewAuditLogEntry models.UserDeletedAction).

(** ** The effect of a part of a transaction

    [stepSpec m ok f entries]: when [ok] holds, [m] returns nil, has
    applied the in-place update [f] to the user object, has appended
    [entries] to the audit log and, if the row of the user was the user
    object before, has made it the updated object; when [ok] does not
    hold, [m] returns an error. *)
Definition noEntries (u : models.User) : list models.AuditLogEntry := [].

Definition stepSpec (m : Tx unit) (ok : bool)
    (f : models.User -> models.User)
    (entries : models.User -> list models.AuditLogEntry) : Prop :=
  (forall u, models.ID (f u) = models.ID u) /\
  forall w,
    if ok then
      exists w',
        m w = (Ok tt, w') /\
        user w' = f (user w) /\
        models.AuditLog (db w') = models.AuditLog (db w) ++ entries (user w) /\
        (models.Users (db w) !! models.ID (user w) = Some (user w) ->
         models.Users (db w')
         = <[models.ID (user w) := f (user w)]> (models.Users (db w)))
    else exists e w', m w = (Err e, w').

(** An administrator of the audience [authenticated], and a super admin
    of another audience with no role. *)
Definition sampleAdmin : models.User :=
  {| models.InstanceID := 0%N; models.ID := 7%N;
     models.Aud := "authenticated"; models.Role := "admin";
     models.Email := "root@example.com"; models.Phone := "";
     models.EncryptedPassword := "hash";
     models.EmailConfirmedAt := None; models.PhoneConfirmedAt := None;
     models.AppMetaData := ∅; models.UserMetaData := ∅;
     models.IsSuperAdmin := false; models.BannedUntil := None |}.

Definition sampleSuperAdmin : models.User :=
  models.NewSystemUser 0%N 0%N "other".

(** ** Helpers of package [api]: the remaining functions *)

Section RequestAudience.
(** The name of the audience header, a constant of package [api] that is
    defined outside the sources. *)
Variable audHeaderName : string.

Definition requestAud (ctx : Context) (r : Request) : string :=
  let config := getConfig ctx in
  let aud := Header_Get r audHeaderName in
  if negb (String.eqb aud "") then aud else
  match getClaims ctx with
  | Some claims =>
      if negb (String.eqb (models.Audience claims) "")
      then models.Audience claims
      else conf.Aud (conf.JWT config)
  | None => conf.Aud (conf.JWT config)
  end.

End RequestAudience.

Section RedirectOrReferrer.
Context {L : url.Lib}.

Definition getRedirectURLOrReferrer (r : Request) (reqref : string)
    : outcome string :=
  let ctx := Request_Context r in
  let config := getConfig ctx in
  valid ← isRedirectURLValid config reqref;
  if (valid : bool) then Returns reqref else getReferrer r.

End RedirectOrReferrer.

Fixpoint isStringInSlice (checkValue : string) (list : list string) : bool :=
  match list with
  | [] => false
  | val :: rest =>
      if String.eqb val checkValue then true
      else isStringInSlice checkValue rest
  end.

(** ** A model of [net.SplitHostPort]

    The host and the port of [host:port], [[host]:port] and the like;
    [None] is a non-nil error. *)
Module GoNet.

(** [bytealg.IndexByteString] *)
Fixpoint IndexByte (s : string) (c : ascii) : option nat :=
  match s with
  | EmptyString => None
  | String d s' =>
      if Ascii.eqb d c then Some O
      else match IndexByte s' c with
           | Some i => Some (S i)
           | None => None
           end
  end.

Definition SplitHostPort (hostport : string) : option (string * string) :=
  match GoURL.LastIndex hostport ":" with
  | None => None
  | Some i =>
      let bracketed :=
        if String.prefix "[" hostport then
          match IndexByte hostport "]" with
          | None => None
          | Some close =>
              if (close + 1 =? String.length hostport)%nat then None
              else if (close + 1 =? i)%nat
              then Some (String.substring 1 (close - 1) hostport, 1, close + 1)%nat
              else None
          end
        else
          let host := GoURL.upto i hostport in
          if isNil (IndexByte host ":") then Some (host, 0, 0)%nat else None in
      match bracketed with
      | None => None
      | Some (host, j, k) =>
          if negb (isNil (IndexByte (GoURL.from j hostport) "[")) then None
          else if negb (isNil (IndexByte (GoURL.from k hostport) "]")) then None
          else Some (host, GoURL.from (i + 1) hostport)
      end
  end.

End GoNet.

(** ** The connection callback of [noLocalTransport.RoundTrip]

    The [ConnectStart] callback, given the address a connection is about
    to be made to: [true] when it calls [cancel()], [false] when it lets
    the connection go on.  (What it prints is left out.) *)
Definition ConnectStart (g : Globals) (addr : string) : outcome bool :=
  match GoNet.SplitHostPort addr with
  | None => Returns true
  | Some (host, _) =>
      match net.ParseIP host with
      | None => Returns true
      | Some ip =>
          private ← isPrivateIP g ip;
          if (private : bool) then Returns true else Returns false
      end
  end.

(** ** [api/admin.go]: loading the target user *)

Definition notFoundError (msg : string) : error := HTTPError 404 msg.

(** Modelled from the spec: [models.IsNotFoundError] tells the not-found
    error of a lookup from every other error. *)
Definition IsNotFoundError (e : error) : bool :=
  match e with
  | UserNotFoundError => true
  | _ => false
  end.

Section LoadUser.
Context {U : uuid.Lib}.
(** The lookup [models.FindUserByInstanceIDAndID], which is outside the
    sources: any function of the storage, the tenant and the identifier
    that returns a user or an error. *)
Variable find : models.Store -> uuid.UUID -> uuid.UUID ->
                option models.User * option error.

(** [loadUser]: [user_id] is the URL parameter of that name.  Returns the
    user put in the context with a nil error, or a nil context with the
    error, and the storage queries issued. *)
Definition loadUser (user_id : string) (ctx : Context) (conn : models.Store)
    : (option models.User * option error) * list StorageQuery :=
  match uuid.FromString user_id with
  | None => ((None, Some (badRequestError "user_id must be an UUID")), [])
  | Some userID =>
      let instanceID := getInstanceID ctx in
      let queries := [QueryFindUser instanceID userID] in
      match find conn instanceID userID with
      | (_, Some err) =>
          if IsNotFoundError err
          then ((None, Some (notFoundError "User not found")), queries)
          else ((None, Some (WithInternalError
                               (internalServerError "Database error loading user")
                               err)), queries)
      | (u, None) => ((u, None), queries)
      end
  end.

End LoadUser.

(** ** [api/admin.go]: creating a user *)

(** The JSON texts stored under [provider] and [providers]. *)
Definition jsonEmail : string :=
  String GoURL.dquote ("email" +:+ String GoURL.dquote "").
Definition jsonEmailList : string := "[" +:+ jsonEmail +:+ "]".

Section CreateUser.
Context {T : time.Lib}.
Variable fails : StorageOp -> bool.
Variable now : time.Time.
Variable hashPassword : string -> string.
Variable audHeaderName : string.
(** The collaborators of [adminUserCreate] that are outside the sources:
    the validation of the email ([a.validateEmail]) and of the phone
    ([a.validatePhone], which also returns the formatted phone), the
    duplicate checks of package [models], the password generator, the
    constructor [models.NewUser] (a user, or an error), and whether
    [tx.Create] fails. *)
Variable validateEmail : string -> option error.
Variable validatePhone : string -> string * option error.
Variable IsDuplicatedEmail :
  models.Store -> uuid.UUID -> string -> string -> bool * option error.
Variable IsDuplicatedPhone :
  models.Store -> uuid.UUID -> string -> string -> bool * option error.
Variable generatePassword : string * option error.
Variable NewUser :
  uuid.UUID -> string -> string -> string -> string ->
  option (gmap string string) -> result models.User.
Variable createFails : bool.

(** Modelled from the spec: [tx.Create(user)] inserts the row of the user
    object.  It is not one of the operations [StorageOp] names; whether it
    fails is [createFails]. *)
Definition Create : Tx unit :=
  fun w =>
    if createFails then (Err (storage_Error "storage operation failed"), w)
    else (Ok tt,
          set_db {| models.Users :=
                      <[models.ID (user w) := user w]> (models.Users (db w));
                    models.AuditLog := models.AuditLog (db w) |} w).

(** The function passed to [a.db.Transaction] by [adminUserCreate]; the
    new user is the user object of the world. *)
Definition adminUserCreate_fn (ctx : Context) (p : params.adminUserParams)
    : Tx unit :=
  let config := getConfig ctx in
  (fun w =>
     NewAuditLogEntry fails (getInstanceID ctx) (getAdminUser ctx)
       models.UserSignedUpAction
       (models.ID (user w)) (models.Email (user w)) (models.Phone (user w)) w)
  >> Create
  >> User_SetRole fails
       (if negb (String.eqb (params.Role p) "") then params.Role p
        else conf.DefaultGroupName (conf.JWT config))
  >> when (params.EmailConfirm p) (User_Confirm fails now)
  >> when (params.PhoneConfirm p) (User_ConfirmPhone fails now).

(** The checks of [adminUserCreate] before the transaction: the user to
    create, or the error returned. *)
Definition adminUserCreate_prepare (ctx : Context) (r : Request)
    (p : params.adminUserParams) (conn : models.Store) : result models.User :=
  let config := getConfig ctx in
  let instanceID := getInstanceID ctx in
  let aud := requestAud audHeaderName ctx r in
  let aud := if negb (String.eqb (params.Aud p) "") then params.Aud p else aud in
  if String.eqb (params.Email p) "" && String.eqb (params.Phone p) ""
  then Err (unprocessableEntityError
              "Cannot create a user without either an email or phone")
  else
  let emailChecked : option error :=
    if negb (String.eqb (params.Email p) "") then
      match validateEmail (params.Email p) with
      | Some err => Some err
      | None =>
          match IsDuplicatedEmail conn instanceID (params.Email p) aud with
          | (_, Some err) =>
              Some (WithInternalError
                      (internalServerError "Database error checking email") err)
          | (true, None) =>
              Some (unprocessableEntityError
                      "Email address already registered by another user")
          | (false, None) => None
          end
      end
    else None in
  match emailChecked with
  | Some err => Err err
  | None =>
  let phoneChecked : result string :=
    if negb (String.eqb (params.Phone p) "") then
      match validatePhone (params.Phone p) with
      | (_, Some err) => Err err
      | (phone, None) =>
          match IsDuplicatedPhone conn instanceID phone aud with
          | (_, Some err) =>
              Err (WithInternalError
                     (internalServerError "Database error checking phone") err)
          | (true, None) =>
              Err (unprocessableEntityError
                     "Phone number already registered by another user")
          | (false, None) => Ok phone
          end
      end
    else Ok (params.Phone p) in
  match phoneChecked with
  | Err err => Err err
  | Ok phone =>
  let generated : result string :=
    match params.Password p with
    | Some password =>
        if String.eqb password "" then
          match generatePassword with
          | (_, Some err) =>
              Err (WithInternalError
                     (internalServerError "Error generating password") err)
          | (password, None) => Ok password
          end
        else Ok password
    | None =>
        match generatePassword with
        | (_, Some err) =>
            Err (WithInternalError
                   (internalServerError "Error generating password") err)
        | (password, None) => Ok password
        end
    end in
  match generated with
  | Err err => Err err
  | Ok password =>
  match NewUser instanceID phone (params.Email p) password aud
          (params.UserMetaData p) with
  | Err err =>
      Err (WithInternalError (internalServerError "Error creating user") err)
  | Ok created =>
      let created :=
        with_AppMetaData
          (<["providers" := jsonEmailList]>
             (<["provider" := jsonEmail]> (models.AppMetaData created)))
          created in
      if negb (String.eqb (params.BanDuration p) "") then
        match time.ParseDuration (params.BanDuration p) with
        | None =>
            Err (badRequestError
                   ("Invalid format for ban_duration: " +:+
                    "time: invalid duration " +:+ params.BanDuration p))
        | Some duration =>
            Ok (with_BannedUntil (Some (time.Add now duration)) created)
        end
      else Ok created
  end end end end.

(** [adminUserCreate]: [decoded] is the result of [a.getAdminParams(r)];
    [Ok u] is the response that sends [u] as JSON. *)
Definition adminUserCreate (ctx : Context) (r : Request)
    (decoded : result params.adminUserParams) (w : World)
    : result models.User * World :=
  match decoded with
  | Err err => (Err err, w)
  | Ok p =>
      match adminUserCreate_prepare ctx r p (db w) with
      | Err err => (Err err, w)
      | Ok created =>
          match Transaction (adminUserCreate_fn ctx p) (set_user created w) with
          | (Some err, w') =>
              if strings.Contains (Error err) "Invalid format for ban_duration"
              then (Err err, w')
              else (Err (WithInternalError
                           (internalServerError "Database error creating new user")
                           err), w')
          | (None, w') => (Ok (user w'), w')
          end
      end
  end.

End CreateUser.

(** A request with the audience header [X-JWT-AUD] set to [aud]. *)
Definition audRequest (aud : string) : Request :=
  {| Header_Get := fun key => if String.eqb key "X-JWT-AUD" then aud else "";
     ParseForm := None;
     Form_Get := fun _ => "";
     Request_Context := sampleContext [] |}.

(** A block of the list holds the address. *)
Definition blockHolds (ip : net.IP) (block : IPNetPtr) : bool :=
  match block with
  | Some (_, n) => net.Contains n ip
  | None => false
  end.

(** The network of [127.0.0.0/8]. *)
Definition loopbackNet : net.IPNet :=
  {| net.net_IP := [127; 0; 0; 0]; net.net_Mask := [255; 0; 0; 0] |}.

(** Every block of the list is a network allocated before. *)
Definition blocksAllocated (g : Globals) : Prop :=
  Forall (fun block => exists a n, block = Some (a, n) /\ (a < allocated g)%nat)
         (privateIPBlocks g).

(** The IPv4 ranges of the table of [init], for an address [a.b.c.d]. *)
Definition privateIPv4 (a b c : Z) : bool :=
  (a =? 127)
  || (a =? 10)
  || ((a =? 100) && ((64 <=? b) && (b <=? 127)))
  || ((a =? 172) && ((16 <=? b) && (b <=? 31)))
  || ((a =? 192) && ((b =? 0) && (c =? 0)))
  || ((a =? 192) && (b =? 168))
  || ((a =? 169) && (b =? 254)).

(** A byte. *)
Definition isByte (x : Z) : Prop := 0 <= x < 256.

(** Every row of the storage is kept under the identifier of its user. *)
Definition rowsKeyedByID (conn : models.Store) : Prop :=
  forall key u, models.Users conn !! key = Some u -> models.ID u = key.




(** The audience [adminUserCreate] works with: the one of the request
    body when it is set, else the one of the request. *)
Definition createAud (audHeaderName : string) (ctx : Context) (r : Request)
    (p : params.adminUserParams) : string :=
  if negb (String.eqb (params.Aud p) "") then params.Aud p
  else requestAud audHeaderName ctx r.

(** ** Sample collaborators of [adminUserCreate]

    A validation that accepts every email, one that keeps every phone as
    it is, duplicate checks that look the rows of the storage up, a
    fixed generated password and a constructor that gives the new user
    the identifier 9. *)
Definition acceptEmail (email : string) : option error := None.

Definition keepPhone (phone : string) : string * option error := (phone, None).

Definition emailTaken (conn : models.Store) (instanceID : uuid.UUID)
    (email aud : string) : bool * option error :=
  (existsb (fun row : uuid.UUID * models.User =>
              N.eqb (models.InstanceID row.2) instanceID
              && String.eqb (models.Email row.2) email
              && String.eqb (models.Aud row.2) aud)
     (map_to_list (models.Users conn)), None).

Definition phoneTaken (conn : models.Store) (instanceID : uuid.UUID)
    (phone aud : string) : bool * option error :=
  (existsb (fun row : uuid.UUID * models.User =>
              N.eqb (models.InstanceID row.2) instanceID
              && String.eqb (models.Phone row.2) phone
              && String.eqb (models.Aud row.2) aud)
     (map_to_list (models.Users conn)), None).

Definition samplePassword : string * option error := ("generated", None).

Definition sampleNewUser (instanceID : uuid.UUID)
    (phone email password aud : string) (meta : option (gmap string string))
    : result models.User :=
  Ok {| models.InstanceID := instanceID; models.ID := 9%N;
        models.Aud := aud; models.Role := "";
        models.Email := email; models.Phone := phone;
        models.EncryptedPassword := password;
        models.EmailConfirmedAt := None; models.PhoneConfirmedAt := None;
        models.AppMetaData := ∅; models.UserMetaData := default ∅ meta;
        models.IsSuperAdmin := false; models.BannedUntil := None |}.

(** A request to create a user with the given email and ban duration. *)
Definition createRequest (email duration : string) : params.adminUserParams :=
  {| params.Aud := ""; params.Role := ""; params.Email := email;
     params.Phone := ""; params.Password := None;
     params.EmailConfirm := true; params.PhoneConfirm := false;
     params.UserMetaData := None; params.AppMetaData := None;
     params.BanDuration := duration |}.

(** * Properties *)

(** ** Package [strings] *)

Lemma append_cons (c : ascii) (s t : string) :
  String c s +:+ t = String c (s +:+ t).
Proof. reflexivity. Qed.

Lemma HasSuffix_cons (c d : ascii) (s : string) :
  strings.HasSuffix (String c (String d s)) "/"
  = strings.HasSuffix (String d s) "/".
Proof.
  unfold strings.HasSuffix. simpl.
  now rewrite Nat.sub_0_r.
Qed.

Lemma TrimSuffix_cons (c d : ascii) (s : string) :
  strings.TrimSuffix (String c (String d s)) "/"
  = String c (strings.TrimSuffix (String d s) "/").
Proof.
  unfold strings.TrimSuffix. rewrite HasSuffix_cons.
  destruct (strings.HasSuffix (String d s) "/"); [|reflexivity].
  simpl. now rewrite Nat.sub_0_r.
Qed.

Lemma HasSuffix_append_slash (t : string) :
  strings.HasSuffix (t +:+ "/") "/" = true.
Proof.
  induction t as [|c t IH]; [reflexivity|].
  destruct t as [|d t]; [reflexivity|].
  rewrite !append_cons in *. now rewrite HasSuffix_cons.
Qed.

(** [TrimSuffix] removes one trailing slash. *)
Lemma TrimSuffix_append_slash (t : string) :
  strings.TrimSuffix (t +:+ "/") "/" = t.
Proof.
  induction t as [|c t IH]; [reflexivity|].
  destruct t as [|d t]; [reflexivity|].
  rewrite !append_cons in *. rewrite TrimSuffix_cons. now rewrite IH.
Qed.

Lemma HasSuffix_slash_inv (s : string) :
  strings.HasSuffix s "/" = true -> exists t, s = t +:+ "/".
Proof.
  induction s as [|c s IH]; [discriminate|].
  destruct s as [|d s].
  - unfold strings.HasSuffix. simpl. intros H.
    destruct (Ascii.eqb_spec c "/") as [->|Hne].
    + now exists "".
    + discriminate.
  - rewrite HasSuffix_cons. intros H. destruct (IH H) as [t Ht].
    exists (String c t). rewrite append_cons. now rewrite <- Ht.
Qed.

(** A string with no trailing slash is left as it is. *)
Lemma TrimSuffix_no_slash (s : string) :
  (forall t, s <> t +:+ "/") -> strings.TrimSuffix s "/" = s.
Proof.
  intros H. unfold strings.TrimSuffix.
  destruct (strings.HasSuffix s "/") eqn:E; [|reflexivity].
  destruct (HasSuffix_slash_inv _ E) as [t Ht]. now destruct (H t).
Qed.

Lemma append_assoc (a b c : string) : (a +:+ b) +:+ c = a +:+ (b +:+ c).
Proof.
  induction a as [|x a IH]; [reflexivity|].
  rewrite !append_cons. now rewrite IH.
Qed.

Lemma append_slash_neq (t : string) : t <> t +:+ "/".
Proof.
  induction t as [|c t IH]; [discriminate|].
  rewrite append_cons. intros H. injection H as H. now apply IH.
Qed.

(** ** Normalization of parsed URLs *)

Lemma set_Path_same (u : url.URL) : url.set_Path (url.Path u) u = u.
Proof. now destruct u. Qed.

Lemma isHTTP_iff (scheme : string) :
  String.eqb scheme "https" || String.eqb scheme "http" = true
  <-> scheme = "https" \/ scheme = "http".
Proof.
  rewrite orb_true_iff, !String.eqb_eq. tauto.
Qed.

Lemma normalizePath_http (u : url.URL) :
  url.Scheme u = "https" \/ url.Scheme u = "http" ->
  normalizePath u = url.set_Path (strings.TrimSuffix (url.Path u) "/") u.
Proof.
  intros H. apply isHTTP_iff in H. unfold normalizePath. now rewrite H.
Qed.

Lemma normalizePath_other (u : url.URL) :
  ~ (url.Scheme u = "https" \/ url.Scheme u = "http") ->
  normalizePath u = u.
Proof.
  intros H. unfold normalizePath.
  destruct (String.eqb (url.Scheme u) "https" || String.eqb (url.Scheme u) "http")
    eqn:E; [|reflexivity].
  apply isHTTP_iff in E. contradiction.
Qed.

Lemma ends_in_slash_dec (s : string) :
  (exists t, s = t +:+ "/") \/ (forall t, s <> t +:+ "/").
Proof.
  destruct (strings.HasSuffix s "/") eqn:E.
  - left. now apply HasSuffix_slash_inv.
  - right. intros t ->. now rewrite HasSuffix_append_slash in E.
Qed.

Section NormalizationProperties.
Context {L : url.Lib}.

(** C6 (amended).  [parseURL] returns the parsed URL after one
    normalization step.  For an http or https URL the step removes exactly
    one trailing slash from the path and changes nothing else (a path with
    no trailing slash is left as it is); for any other scheme the URL is
    unchanged.  Normalizing twice gives the same URL as normalizing once
    exactly when the URL is not an http(s) URL whose path ends in two
    slashes. *)
Theorem parseURL_normalization (u : url.URL) :
  let http := url.Scheme u = "https" \/ url.Scheme u = "http" in
  (forall s, url.Parse s = Some u -> parseURL s = (Some (normalizePath u), None)) /\
  (http -> forall t, url.Path u = t +:+ "/" ->
           normalizePath u = url.set_Path t u) /\
  (http -> (forall t, url.Path u <> t +:+ "/") -> normalizePath u = u) /\
  (~ http -> normalizePath u = u) /\
  (normalizePath (normalizePath u) = normalizePath u
   <-> ~ (http /\ exists t, url.Path u = t +:+ "//")).
Proof.
  intros http. subst http. repeat split.
  - intros s Hs. unfold parseURL. now rewrite Hs.
  - intros Hh t Ht. rewrite normalizePath_http by assumption.
    now rewrite Ht, TrimSuffix_append_slash.
  - intros Hh Hno. rewrite normalizePath_http by assumption.
    rewrite TrimSuffix_no_slash by assumption. apply set_Path_same.
  - apply normalizePath_other.
  - intros Hidem [Hh [t Ht]].
    assert (H1 : normalizePath u = url.set_Path (t +:+ "/") u).
    { rewrite normalizePath_http by assumption.
      rewrite Ht. change "//" with ("/" +:+ "/").
      now rewrite <- append_assoc, TrimSuffix_append_slash. }
    rewrite H1 in Hidem.
    rewrite normalizePath_http in Hidem by (now destruct u).
    cbn [url.set_Path url.Path] in Hidem.
    rewrite TrimSuffix_append_slash in Hidem.
    apply (f_equal url.Path) in Hidem. cbn in Hidem.
    now apply (append_slash_neq t).
  - intros Hnot.
    destruct (String.eqb (url.Scheme u) "https" || String.eqb (url.Scheme u) "http")
      eqn:E.
    + apply isHTTP_iff in E.
      destruct (ends_in_slash_dec (url.Path u)) as [[t Ht]|Hno].
      * assert (H1 : normalizePath u = url.set_Path t u).
        { rewrite normalizePath_http by assumption.
          now rewrite Ht, TrimSuffix_append_slash. }
        rewrite H1. rewrite normalizePath_http by (now destruct u).
        cbn [url.set_Path url.Path].
        rewrite TrimSuffix_no_slash; [now destruct u|].
        intros t' ->. apply Hnot. split; [assumption|].
        exists t'. now rewrite Ht, append_assoc.
      * assert (H1 : normalizePath u = u).
        { rewrite normalizePath_http by assumption.
          rewrite TrimSuffix_no_slash by assumption. apply set_Path_same. }
        now rewrite !H1.
    + assert (H1 : normalizePath u = u).
      { apply normalizePath_other. intros H. apply isHTTP_iff in H. congruence. }
      now rewrite !H1.
Qed.

End NormalizationProperties.

(** ** The admin check *)

(** C7.  [isAdmin] holds exactly when the user is a super admin, or the
    effective audience (the configured default when the caller passes the
    empty audience) is the user's audience and the user holds the
    configured admin role.  The super-admin flag alone is enough, whatever
    the audience; the admin role with another audience is not. *)
Theorem isAdmin_iff (ctx : Context) (u : models.User) (aud : string) :
  let config := getConfig ctx in
  let effective :=
    if decide (aud = "") then conf.Aud (conf.JWT config) else aud in
  let adminRole := models.HasRole u (conf.AdminGroupName (conf.JWT config)) in
  (isAdmin ctx u aud = true
   <-> models.IsSuperAdmin u = true
       \/ (effective = models.Aud u /\ adminRole = true)) /\
  (models.IsSuperAdmin u = true -> isAdmin ctx u aud = true) /\
  (models.IsSuperAdmin u = false -> adminRole = true ->
   effective <> models.Aud u -> isAdmin ctx u aud = false).
Proof.
  intros config effective adminRole.
  assert (Heff : (if String.eqb aud "" then conf.Aud (conf.JWT config) else aud)
                 = effective).
  { subst effective. destruct (String.eqb_spec aud ""); now case_decide. }
  assert (Hiff : isAdmin ctx u aud = true
                 <-> models.IsSuperAdmin u = true
                     \/ (effective = models.Aud u /\ adminRole = true)).
  { unfold isAdmin. fold config. rewrite Heff. fold adminRole.
    rewrite orb_true_iff, andb_true_iff, String.eqb_eq. tauto. }
  split; [exact Hiff|]. split.
  - intros H. apply Hiff. now left.
  - intros Hsuper Hrole Hne.
    apply not_true_is_false. intros E.
    apply Hiff in E. destruct E as [E|[E _]]; congruence.
Qed.

(** On the sample tenant (default audience [authenticated], admin role
    [admin]): the admin role with the default audience grants admin, the
    same role asked for another audience does not, and a super admin of
    another audience is an admin. *)
Lemma isAdmin_iff_witness :
  isAdmin (sampleContext []) sampleAdmin "" = true /\
  isAdmin (sampleContext []) sampleAdmin "other" = false /\
  isAdmin (sampleContext []) sampleSuperAdmin "authenticated" = true.
Proof.
  split; [|split].
  - apply (proj1 (isAdmin_iff (sampleContext []) sampleAdmin "")).
    right. split; reflexivity.
  - apply (proj2 (proj2 (isAdmin_iff (sampleContext []) sampleAdmin "other")));
      [reflexivity | reflexivity | discriminate].
  - apply (proj1 (proj2 (isAdmin_iff (sampleContext []) sampleSuperAdmin
                           "authenticated"))).
    reflexivity.
Defined.

(** ** Redirect validation *)

Section RedirectProperties.
Context {L : url.Lib}.

Lemma parseURL_None (s : string) :
  url.Parse s = None -> parseURL s = (None, Some (url_Error "parse" s)).
Proof. intros H. unfold parseURL. now rewrite H. Qed.

Lemma fst_parseURL (s : string) :
  fst (parseURL s) = normalizePath <$> url.Parse s.
Proof. unfold parseURL. now destruct (url.Parse s). Qed.

(** The empty candidate is rejected before anything is parsed. *)
Lemma isRedirectURLValid_empty (config : conf.Configuration) :
  isRedirectURLValid config "" = Returns false.
Proof. reflexivity. Qed.

(** A non-empty candidate that does not parse leaves [refurl] nil, and
    [refurl.String()] faults. *)
Lemma isRedirectURLValid_unparseable (config : conf.Configuration)
    (candidate : string) :
  candidate <> "" -> url.Parse candidate = None ->
  isRedirectURLValid config candidate = Panics nil_dereference.
Proof.
  intros Hne Hparse. unfold isRedirectURLValid.
  apply String.eqb_neq in Hne. rewrite Hne.
  rewrite (parseURL_None _ Hparse).
  now destruct (parseURL (conf.SiteURL config)).
Qed.

(** What the function computes for a candidate that parses. *)
Lemma isRedirectURLValid_parsed (config : conf.Configuration)
    (candidate : string) (refurl : url.URL) :
  candidate <> "" -> fst (parseURL candidate) = Some refurl ->
  isRedirectURLValid config candidate =
  Returns
    (match fst (parseURL (conf.SiteURL config)) with
     | Some base => String.eqb (url.Hostname base) (url.Hostname refurl)
     | None => false
     end
     || existsb (allowListEntryMatches (url.String refurl) candidate)
          (map_to_list (conf.URIAllowListMap config))).
Proof.
  intros Hne Hparse. unfold isRedirectURLValid.
  apply String.eqb_neq in Hne. rewrite Hne.
  rewrite fst_parseURL in Hparse. unfold parseURL in *.
  destruct (url.Parse candidate) as [r|]; [|discriminate].
  injection Hparse as <-.
  destruct (url.Parse (conf.SiteURL config)) as [b|]; cbn.
  - now destruct (String.eqb (url.Hostname (normalizePath b))
                             (url.Hostname (normalizePath r))).
  - reflexivity.
Qed.

Lemma allowList_exists (config : conf.Configuration)
    (candidate : string) (refurl : url.URL) :
  fst (parseURL candidate) = Some refurl ->
  existsb (allowListEntryMatches (url.String refurl) candidate)
    (map_to_list (conf.URIAllowListMap config)) = true
  <-> exists uri g,
        conf.URIAllowListMap config !! uri = Some g /\
        matchesEntry candidate uri g.
Proof.
  intros Hparse. rewrite existsb_exists. split.
  - intros [[uri g] [Hin Hm]].
    apply list_elem_of_In, elem_of_map_to_list in Hin.
    exists uri, g. split; [assumption|].
    unfold matchesEntry. cbn in Hm.
    destruct (strings.HasPrefix uri "http" || strings.HasPrefix uri "https").
    + now exists refurl.
    + now apply String.eqb_eq.
  - intros (uri & g & Hlook & Hm). exists (uri, g). split.
    + now apply list_elem_of_In, elem_of_map_to_list.
    + unfold matchesEntry in Hm. cbn.
      destruct (strings.HasPrefix uri "http" || strings.HasPrefix uri "https").
      * destruct Hm as (r & Hr & Hg). congruence.
      * now apply String.eqb_eq.
Qed.

(** For a candidate that parses, the function returns, and it returns
    [true] exactly when the contract holds. *)
Lemma isRedirectURLValid_contract (config : conf.Configuration)
    (candidate : string) (refurl : url.URL) :
  fst (parseURL candidate) = Some refurl ->
  (exists b, isRedirectURLValid config candidate = Returns b) /\
  (isRedirectURLValid config candidate = Returns true
   <-> validRedirect config candidate).
Proof.
  intros Hparse.
  destruct (String.eqb_spec candidate "") as [->|Hne].
  { rewrite isRedirectURLValid_empty. split; [now exists false|].
    split; [discriminate|]. now intros [H _]. }
  rewrite (isRedirectURLValid_parsed config _ _ Hne Hparse).
  split; [eauto|].
  split.
  - intros H. injection H as H. split; [assumption|].
    apply orb_true_iff in H. destruct H as [H|H].
    + left. destruct (fst (parseURL (conf.SiteURL config))) as [b|] eqn:Eb;
        [|discriminate].
      apply String.eqb_eq in H. now exists b, refurl.
    + right. now apply (allowList_exists config candidate refurl).
  - intros [_ [H|H]]; f_equal; apply orb_true_iff.
    + left. destruct H as (b & r & Hb & Hr & Hh). rewrite Hb.
      apply String.eqb_eq. congruence.
    + right. now apply (allowList_exists config candidate refurl).
Qed.

(** ** The effective redirect *)


(** A fault of a validation is a fault of the resolution. *)
Lemma getReferrer_faults (r : Request) (reason : string) :
  let config := getConfig (Request_Context r) in
  isRedirectURLValid config (getRedirectTo r) = Panics reason \/
  (isRedirectURLValid config (getRedirectTo r) = Returns false /\
   isRedirectURLValid config (Referer r) = Panics reason) ->
  getReferrer r = Panics reason.
Proof.
  intros config. unfold getReferrer. fold config.
  now intros [->|[-> ->]].
Qed.

(** The redirect field: the header, else the form value when the form
    parses, else empty. *)
Lemma getRedirectTo_order (r : Request) :
  (Header_Get r "redirect_to" <> "" ->
   getRedirectTo r = Header_Get r "redirect_to") /\
  (Header_Get r "redirect_to" = "" -> ParseForm r = None ->
   getRedirectTo r = Form_Get r "redirect_to") /\
  (Header_Get r "redirect_to" = "" -> ParseForm r <> None ->
   getRedirectTo r = "").
Proof.
  unfold getRedirectTo. repeat split.
  - intros H. apply String.eqb_neq in H. now rewrite H.
  - now intros -> ->.
  - intros ->. now destruct (ParseForm r).
Qed.

End RedirectProperties.

(** ** Redirect validation on the library model *)

(** The candidate [https://a.example/cb/] parses; with the allow-list entry
    [https://a.example/cb] the function returns [true], and the contract
    holds for it. *)
Lemma isRedirectURLValid_contract_witness :
  isRedirectURLValid (siteConfig ["https://a.example/cb"]) "https://a.example/cb/"
  = Returns true /\
  validRedirect (siteConfig ["https://a.example/cb"]) "https://a.example/cb/".
Proof.
  assert (H : isRedirectURLValid (siteConfig ["https://a.example/cb"])
                "https://a.example/cb/" = Returns true)
    by (vm_compute; reflexivity).
  split; [exact H|].
  eapply (proj2 (isRedirectURLValid_contract
                   (siteConfig ["https://a.example/cb"])
                   "https://a.example/cb/" _ _)).
  exact H.
  Unshelve.
  - exact (url.set_Path "/cb"
             {| url.Scheme := "https"; url.Opaque := ""; url.User := None;
                url.Host := "a.example"; url.Path := "/cb/"; url.RawPath := "";
                url.ForceQuery := false; url.RawQuery := "";
                url.Fragment := ""; url.RawFragment := "" |}).
  - vm_compute. reflexivity.
Defined.

(** The examples of the contract: with the entry [https://a.example/cb]
    the candidate validates with and without a trailing slash; with the
    entry [myapp://callback] only the same bytes validate. *)
Lemma isRedirectURLValid_examples :
  isRedirectURLValid (siteConfig ["https://a.example/cb"]) "https://a.example/cb"
  = Returns true /\
  isRedirectURLValid (siteConfig ["https://a.example/cb"]) "https://a.example/cb/"
  = Returns true /\
  isRedirectURLValid (siteConfig ["myapp://callback"]) "myapp://callback"
  = Returns true /\
  isRedirectURLValid (siteConfig ["myapp://callback"]) "myapp://callback/"
  = Returns false /\
  isRedirectURLValid (siteConfig []) "https://trusted.example/any/path?q=1"
  = Returns true /\
  isRedirectURLValid (siteConfig []) "https://evil.example/" = Returns false.
Proof. repeat split; vm_compute; reflexivity. Qed.

(** C10, at a failing input.  The candidate [https://trusted.example/%zz]
    holds an invalid percent-escape, so parsing it returns an error and a
    nil URL; the function then calls [String] on the nil URL and faults
    instead of returning a boolean. *)
Theorem isRedirectURLValid_faults_on_invalid_escape :
  url.Parse "https://trusted.example/%zz" = None /\
  isRedirectURLValid (siteConfig []) "https://trusted.example/%zz"
  = Panics nil_dereference.
Proof. split; vm_compute; reflexivity. Qed.

(** C2, at a failing input.  The allow list holds the custom-scheme entry
    [my_app://callback]; the candidate is the same bytes, so the contract
    holds for it (an entry that does not begin with http is compared with
    the raw candidate).  The scheme is not one the library parses, and the
    function faults before the comparison is reached. *)
Theorem isRedirectURLValid_faults_on_allowed_custom_scheme :
  validRedirect (siteConfig ["my_app://callback"]) "my_app://callback" /\
  isRedirectURLValid (siteConfig ["my_app://callback"]) "my_app://callback"
  = Panics nil_dereference.
Proof.
  split.
  - split; [discriminate|]. right.
    exists "my_app://callback", (GoGlob.MustCompile "my_app://callback" "./").
    split; [vm_compute; reflexivity|].
    unfold matchesEntry. reflexivity.
  - apply isRedirectURLValid_unparseable; [discriminate|].
    vm_compute. reflexivity.
Qed.

(** The examples of the resolution order: an empty redirect field and a
    referrer on the site give the referrer; nothing valid gives the site
    URL; a valid redirect field wins over the referrer. *)
Lemma getReferrer_examples :
  getReferrer (sampleRequest [] "" "https://trusted.example/page")
  = Returns "https://trusted.example/page" /\
  getReferrer (sampleRequest [] "" "") = Returns "https://trusted.example" /\
  getReferrer (sampleRequest [] "https://evil.example/x" "https://evil.example/")
  = Returns "https://trusted.example" /\
  getReferrer (sampleRequest [] "https://trusted.example/a"
                 "https://trusted.example/page")
  = Returns "https://trusted.example/a".
Proof. repeat split; vm_compute; reflexivity. Qed.

(** C5, at a failing input.  A request whose [redirect_to] header does not
    parse as a URL makes the resolution fault: no redirect is returned, not
    even the site URL.  The same happens when the redirect field is empty
    and the referrer header does not parse. *)
Theorem getReferrer_faults_on_unparseable_redirect :
  getReferrer (sampleRequest [] "https://trusted.example/%zz" "")
  = Panics nil_dereference /\
  getReferrer (sampleRequest [] "" "https://trusted.example/%zz")
  = Panics nil_dereference.
Proof. split; vm_compute; reflexivity. Qed.

(** Normalization is not idempotent: the path of [https://a.example/cb//]
    ends in two slashes, and a second normalization removes the second
    one, on the parsed URL and through its text alike. *)
Lemma normalization_not_idempotent :
  exists u once,
    url.Parse "https://a.example/cb//" = Some u /\
    fst (parseURL "https://a.example/cb//") = Some once /\
    once = normalizePath u /\
    url.Path once = "/cb/" /\
    url.Path (normalizePath once) = "/cb" /\
    normalizePath once <> once /\
    fst (parseURL (url.String once)) <> Some once.
Proof.
  eexists. eexists.
  split; [vm_compute; reflexivity|].
  split; [vm_compute; reflexivity|].
  repeat split; try (vm_compute; reflexivity); vm_compute; discriminate.
Qed.

(** The normalization of [https://a.example/cb/]: one slash is removed. *)
Lemma parseURL_normalization_witness :
  parseURL "https://a.example/cb/"
  = (Some (url.set_Path "/cb"
             {| url.Scheme := "https"; url.Opaque := ""; url.User := None;
                url.Host := "a.example"; url.Path := "/cb/"; url.RawPath := "";
                url.ForceQuery := false; url.RawQuery := "";
                url.Fragment := ""; url.RawFragment := "" |}), None).
Proof.
  pose (u := {| url.Scheme := "https"; url.Opaque := ""; url.User := None;
                url.Host := "a.example"; url.Path := "/cb/"; url.RawPath := "";
                url.ForceQuery := false; url.RawQuery := "";
                url.Fragment := ""; url.RawFragment := "" |}).
  destruct (parseURL_normalization u) as (Hparse & Hstrip & _).
  rewrite (Hparse "https://a.example/cb/") by (vm_compute; reflexivity).
  rewrite (Hstrip (or_introl eq_refl) "/cb" eq_refl).
  reflexivity.
Defined.

(** ** The private-address block list *)

(** C3.  With the block list as [init] leaves it, the addresses
    127.0.0.1, 10.1.2.3, 172.16.0.5, 192.168.1.1, 169.254.169.254, ::1 and
    fe80::1 are private, and 8.8.8.8 is not.  Each address is taken as
    [net.ParseIP] returns it; the IPv4 ones also in their 4-byte form. *)
Theorem isPrivateIP_initial_list :
  map (fun s => isPrivateIP init <$> net.ParseIP s)
      ["127.0.0.1"; "10.1.2.3"; "172.16.0.5"; "192.168.1.1";
       "169.254.169.254"; "::1"; "fe80::1"; "8.8.8.8"]
  = [Some (Returns true); Some (Returns true); Some (Returns true);
     Some (Returns true); Some (Returns true); Some (Returns true);
     Some (Returns true); Some (Returns false)] /\
  map (isPrivateIP init)
      [[127; 0; 0; 1]; [10; 1; 2; 3]; [172; 16; 0; 5]; [192; 168; 1; 1];
       [169; 254; 169; 254]; [8; 8; 8; 8]]
  = [Returns true; Returns true; Returns true; Returns true; Returns true;
     Returns false].
Proof. split; vm_compute; reflexivity. Qed.

(** A block at the head of the list decides for the addresses it holds. *)
Lemma isPrivateIP_head (g : Globals) (address : nat) (n : net.IPNet)
    (ip : net.IP) :
  net.Contains n ip = true ->
  isPrivateIP (unshiftPrivateIPBlock (Some (address, n)) g) ip = Returns true.
Proof.
  intros H. unfold isPrivateIP, unshiftPrivateIPBlock. cbn.
  now rewrite H.
Qed.

(** The comparison in [removeLocalhostFromPrivateIPBlock] is between
    pointers, and [localhost] is freshly allocated: no block is found, and
    the index stays at its starting value. *)
Lemma localhostIndex_loop_fresh (blocks : list IPNetPtr) (localhost : IPNetPtr)
    (i start : nat) :
  Forall (fun block => ptrEq block localhost = false) blocks ->
  localhostIndex_loop blocks localhost i start = start.
Proof.
  intros H. revert i. induction H as [|block blocks Hb _ IH]; intros i.
  - reflexivity.
  - cbn. rewrite Hb. apply IH.
Qed.

(** C9.  From the initial block list, removing the loopback entry makes
    127.0.0.1 (in the 16-byte form [net.ParseIP] returns, and in its
    4-byte form) not private.  After a range is put at the head of the
    list, on the initial list or any other, every address the range
    contains is private. *)
Theorem block_list_amendments :
  (exists localhost g,
     removeLocalhostFromPrivateIPBlock init = Returns (localhost, g) /\
     net.ParseIP "127.0.0.1" = Some (net.IPv4 127 0 0 1) /\
     isPrivateIP g (net.IPv4 127 0 0 1) = Returns false /\
     isPrivateIP g [127; 0; 0; 1] = Returns false) /\
  (forall (g : Globals) (address : nat) (n : net.IPNet) (ip : net.IP),
     net.Contains n ip = true ->
     isPrivateIP (unshiftPrivateIPBlock (Some (address, n)) g) ip
     = Returns true).
Proof.
  split.
  - eexists. eexists. split; [vm_compute; reflexivity|].
    repeat split; vm_compute; reflexivity.
  - apply isPrivateIP_head.
Qed.

(** [removeLocalhostFromPrivateIPBlock] compares pointers, and the network
    it parses is a new allocation: on a list of allocated networks no
    entry is equal to it, the index stays 0, and the first block of the
    list is the one removed, whichever range it holds. *)
Theorem removeLocalhost_removes_first_block (g : Globals) (first : IPNetPtr)
    (rest : list IPNetPtr) :
  privateIPBlocks g = first :: rest ->
  Forall (fun block => exists a n, block = Some (a, n) /\ (a < allocated g)%nat)
         (privateIPBlocks g) ->
  exists localhost,
    removeLocalhostFromPrivateIPBlock g
    = Returns (localhost,
               {| privateIPBlocks := rest; allocated := S (allocated g) |}).
Proof.
  intros Hblocks Hallocated.
  unfold removeLocalhostFromPrivateIPBlock, parseCIDRBlock.
  destruct (net.ParseCIDR "127.0.0.0/8") as [n|] eqn:E;
    [|vm_compute in E; discriminate].
  cbn [privateIPBlocks allocated].
  rewrite localhostIndex_loop_fresh.
  - rewrite Hblocks. cbn. rewrite drop_0. eauto.
  - eapply Forall_impl; [exact Hallocated|].
    intros block (a & m & -> & Hlt). cbn.
    apply Nat.eqb_neq. lia.
Qed.

(** After the range 203.0.113.0/24 was put at the head of the initial
    list, the removal takes that range out and leaves the loopback block:
    the list is the initial one again, and 127.0.0.1 is still private. *)
Lemma removeLocalhost_removes_first_block_witness :
  exists localhost g,
    removeLocalhostFromPrivateIPBlock customFirst = Returns (localhost, g) /\
    privateIPBlocks g = privateIPBlocks init /\
    isPrivateIP g (parsedIP "127.0.0.1") = Returns true /\
    isPrivateIP g (parsedIP "203.0.113.7") = Returns false.
Proof.
  destruct (removeLocalhost_removes_first_block customFirst
              (customBlock (allocated init)) (privateIPBlocks init))
    as [localhost H].
  - reflexivity.
  - vm_compute. repeat constructor; eexists; eexists; (split; [reflexivity|]);
      lia.
  - exists localhost. eexists. split; [exact H|].
    split; [reflexivity|]. split; vm_compute; reflexivity.
Defined.

(** The range 203.0.113.0/24 put at the head of the initial list:
    203.0.113.7 was not private before and is private after. *)
Lemma block_list_amendments_witness :
  isPrivateIP init (parsedIP "203.0.113.7") = Returns false /\
  isPrivateIP (unshiftPrivateIPBlock (customBlock (allocated init)) init)
    (parsedIP "203.0.113.7") = Returns true.
Proof.
  split; [vm_compute; reflexivity|].
  exact (proj2 block_list_amendments init (allocated init)
           {| net.net_IP := [203; 0; 113; 0]; net.net_Mask := [255; 255; 255; 0] |}
           (parsedIP "203.0.113.7") eq_refl).
Defined.

(** ** The acting user *)

Section ClaimsProperties.
Context {U : uuid.Lib}.
Variable SystemUserUUID : uuid.UUID.
Variable SystemUserID : string.

(** C8.  [getUserFromClaims] fails with [Invalid token] when the claims
    are absent and with [Invalid claim: id] when the subject is empty (the
    errors of the authorization check).  For the reserved subject of the
    system user, in either of its two spellings, it returns the synthetic
    system user of the current tenant and of the audience of the claims,
    and issues no storage query.  Any other subject is parsed as a user
    identifier: one that does not parse fails with [Invalid user ID], again
    with no query; one that parses is looked up once, by tenant and
    identifier, and the lookup fails with the not-found error when storage
    holds no such user of the tenant. *)
Theorem getUserFromClaims_cases (ctx : Context) (conn : models.Store) :
  let run := getUserFromClaims SystemUserUUID SystemUserID ctx conn in
  let instanceID := getInstanceID ctx in
  (getClaims ctx = None ->
   run = ((None, Some (errors_New "Invalid token")), [])) /\
  (forall claims, getClaims ctx = Some claims ->
     (models.Subject claims = "" ->
      run = ((None, Some (errors_New "Invalid claim: id")), [])) /\
     (models.Subject claims <> "" ->
      models.Subject claims = uuid.String SystemUserUUID
      \/ models.Subject claims = SystemUserID ->
      run = ((Some (models.NewSystemUser SystemUserUUID instanceID
                      (models.Audience claims)), None), [])) /\
     (models.Subject claims <> "" ->
      models.Subject claims <> uuid.String SystemUserUUID ->
      models.Subject claims <> SystemUserID ->
      (uuid.FromString (models.Subject claims) = None ->
       run = ((None, Some (errors_New "Invalid user ID")), [])) /\
      (forall userID, uuid.FromString (models.Subject claims) = Some userID ->
         snd run = [QueryFindUser instanceID userID] /\
         ((forall u, models.Users conn !! userID = Some u ->
                     models.InstanceID u <> instanceID) ->
          fst run = (None, Some UserNotFoundError)) /\
         (forall u, models.Users conn !! userID = Some u ->
                    models.InstanceID u = instanceID ->
                    fst run = (Some u, None))))).
Proof.
  intros run instanceID. subst run instanceID. unfold getUserFromClaims.
  split; [now intros ->|].
  intros claims ->. split; [|split].
  - now intros ->.
  - intros Hne Hsys. apply String.eqb_neq in Hne. rewrite Hne.
    destruct Hsys as [Hsys|Hsys]; rewrite Hsys, String.eqb_refl;
      [reflexivity | now rewrite orb_true_r].
  - intros Hne Hn1 Hn2.
    apply String.eqb_neq in Hne, Hn1, Hn2. rewrite Hne, Hn1, Hn2. cbn.
    split.
    + now intros ->.
    + intros userID ->. cbn. split; [reflexivity|].
      unfold models.FindUserByInstanceIDAndID. split.
      * intros Hnone. destruct (models.Users conn !! userID) as [u|] eqn:E;
          [|reflexivity].
        specialize (Hnone u eq_refl). apply N.eqb_neq in Hnone.
        now rewrite Hnone.
      * intros u -> Hi. apply N.eqb_eq in Hi. now rewrite Hi.
Qed.

End ClaimsProperties.

(** On the library model, with the nil UUID and [0] as the reserved
    subjects: the system user is returned without a query; the subject of
    a stored user is found by one query; a well-formed subject of no user
    fails with the not-found error. *)
Lemma getUserFromClaims_witness :
  getUserFromClaims 0%N "0" (contextOf "0") sampleStore
  = ((Some (models.NewSystemUser 0%N 0%N "authenticated"), None), []) /\
  getUserFromClaims 0%N "0"
    (contextOf "6ba7b810-9dad-11d1-80b4-00c04fd430c8") sampleStore
  = ((Some sampleUser, None), [QueryFindUser 0%N sampleUserID]) /\
  fst (getUserFromClaims 0%N "0"
         (contextOf "6ba7b810-9dad-11d1-80b4-00c04fd430c9") sampleStore)
  = (None, Some UserNotFoundError).
Proof.
  split; [|split].
  - destruct (getUserFromClaims_cases 0%N "0" (contextOf "0") sampleStore)
      as [_ H].
    destruct (H _ eq_refl) as (_ & Hsys & _).
    apply Hsys; [discriminate | now right].
  - destruct (getUserFromClaims_cases 0%N "0"
                (contextOf "6ba7b810-9dad-11d1-80b4-00c04fd430c8") sampleStore)
      as [_ H].
    destruct (H _ eq_refl) as (_ & _ & Hid).
    destruct Hid as [_ Hfound]; [discriminate | vm_compute; discriminate
                                | discriminate |].
    destruct (Hfound sampleUserID) as (Hq & _ & Hu);
      [vm_compute; reflexivity|].
    specialize (Hu sampleUser eq_refl eq_refl).
    destruct (getUserFromClaims _ _ _ _) as [res queries]. cbn in *.
    now subst.
  - destruct (getUserFromClaims_cases 0%N "0"
                (contextOf "6ba7b810-9dad-11d1-80b4-00c04fd430c9") sampleStore)
      as [_ H].
    destruct (H _ eq_refl) as (_ & _ & Hid).
    destruct Hid as [_ Hfound]; [discriminate | vm_compute; discriminate
                                | discriminate |].
    destruct (Hfound (sampleUserID + 1)%N) as (_ & Hnone & _);
      [vm_compute; reflexivity|].
    apply Hnone. intros u Hu. vm_compute in Hu. discriminate.
Defined.

(** ** Transactions of the admin handlers *)

Section AdminProperties.
Context {T : time.Lib}.
Variable fails : StorageOp -> bool.
Variable now : time.Time.
Variable hashPassword : string -> string.

(** C4.  [adminUserDelete] opens one transaction and sends the audit
    insert of kind [UserDeletedAction] first.  When that insert fails the
    transaction is rolled back without [Destroy] being sent, and storage,
    the row of the user included, is as before.  When it succeeds
    [Destroy] is sent next, in the same transaction: its failure rolls
    back the audit entry too, its success commits the deletion of the row
    together with exactly one new audit entry. *)
Theorem adminUserDelete_audit_first (ctx : Context) (w : World) :
  let auditOp := OpNewAuditLogEntry models.UserDeletedAction in
  let id := models.ID (user w) in
  let '(res, w') := adminUserDelete fails ctx w in
  (exists rest, issued w' = issued w ++ TxBegin :: auditOp :: rest) /\
  (fails auditOp = true ->
   issued w' = issued w ++ [TxBegin; auditOp; TxRollback] /\
   db w' = db w /\
   models.Users (db w') !! id = models.Users (db w) !! id /\
   exists e, res = Err e) /\
  (fails auditOp = false -> fails OpDestroy = true ->
   issued w' = issued w ++ [TxBegin; auditOp; OpDestroy; TxRollback] /\
   db w' = db w /\
   exists e, res = Err e) /\
  (fails auditOp = false -> fails OpDestroy = false ->
   issued w' = issued w ++ [TxBegin; auditOp; OpDestroy; TxCommit] /\
   models.Users (db w') = delete id (models.Users (db w)) /\
   models.AuditLog (db w')
   = models.AuditLog (db w) ++ [auditEntry ctx models.UserDeletedAction (user w)] /\
   res = Ok tt).
Proof.
  intros auditOp id. subst auditOp id.
  unfold adminUserDelete, Transaction, adminUserDelete_fn,
    NewAuditLogEntry, Destroy, exec.
  cbn [record set_db db user issued].
  destruct (fails (OpNewAuditLogEntry models.UserDeletedAction)) eqn:Ea.
  - cbn. rewrite <- !app_assoc. cbn.
    split; [eauto|]. split; [eauto 10|]. split; [discriminate|discriminate].
  - cbn. destruct (fails OpDestroy) eqn:Ed; cbn; rewrite <- !app_assoc; cbn.
    + split; [eauto|]. split; [discriminate|]. split; [eauto 10|discriminate].
    + split; [eauto|]. split; [discriminate|]. split; [discriminate|].
      intros _ _. repeat split.
Qed.

(** *** Steps of the update transaction *)

Lemma stepSpec_returnNil : stepSpec returnNil true (fun u => u) noEntries.
Proof.
  split; [reflexivity|]. intros w. exists w.
  repeat split.
  - unfold noEntries. now rewrite app_nil_r.
  - intros H. now rewrite insert_id.
Qed.

Lemma stepSpec_fail (e : error) (f : models.User -> models.User) :
  (forall u, models.ID (f u) = models.ID u) ->
  stepSpec (fail e) false f noEntries.
Proof. intros Hid. split; [assumption|]. intros w. now exists e, w. Qed.

(** An in-place update followed by the write of the row. *)
Lemma stepSpec_persist (op : StorageOp) (f : models.User -> models.User) :
  (forall u, models.ID (f u) = models.ID u) ->
  stepSpec (assign f >> persist fails op) (negb (fails op)) f noEntries.
Proof.
  intros Hid. split; [assumption|]. intros w.
  unfold andThen, assign, persist, exec. cbn.
  destruct (fails op); cbn; [eauto|].
  eexists. split; [reflexivity|]. cbn. repeat split.
  - unfold noEntries. now rewrite app_nil_r.
  - intros _. now rewrite Hid.
Qed.

Lemma stepSpec_andThen (a b : Tx unit) (oka okb : bool)
    (fa fb : models.User -> models.User)
    (ea eb : models.User -> list models.AuditLogEntry) :
  stepSpec a oka fa ea -> stepSpec b okb fb eb ->
  stepSpec (a >> b) (oka && okb) (fun u => fb (fa u))
    (fun u => ea u ++ eb (fa u)).
Proof.
  intros [Hida Ha] [Hidb Hb]. split.
  { intros u. now rewrite Hidb, Hida. }
  intros w. unfold andThen. specialize (Ha w).
  destruct oka; cbn.
  - destruct Ha as (w1 & -> & Hu1 & Hlog1 & Hrow1).
    specialize (Hb w1). destruct okb.
    + destruct Hb as (w2 & -> & Hu2 & Hlog2 & Hrow2).
      exists w2. split; [reflexivity|]. split; [congruence|].
      split; [rewrite Hlog2, Hlog1, Hu1; now rewrite app_assoc|].
      intros Hsync. specialize (Hrow1 Hsync).
      rewrite Hu1, Hida in Hrow2. rewrite Hrow2.
      * rewrite Hrow1. apply insert_insert_eq.
      * rewrite Hrow1. apply lookup_insert_eq.
    + destruct Hb as (e & w2 & ->). eauto.
  - destruct Ha as (e & w1 & ->). eauto.
Qed.

Lemma stepSpec_when (cond : bool) (m : Tx unit) (ok : bool)
    (f : models.User -> models.User) :
  stepSpec m ok f noEntries ->
  stepSpec (when cond m) (negb cond || ok) (if cond then f else fun u => u)
    noEntries.
Proof.
  intros H. destruct cond; cbn; [assumption | apply stepSpec_returnNil].
Qed.

Lemma stepSpec_ext (m : Tx unit) (ok ok' : bool)
    (f f' : models.User -> models.User)
    (e e' : models.User -> list models.AuditLogEntry) :
  ok = ok' -> (forall u, f u = f' u) -> (forall u, e u = e' u) ->
  stepSpec m ok f e -> stepSpec m ok' f' e'.
Proof.
  intros <- Hf He [Hid H]. split.
  { intros u. now rewrite <- Hf. }
  intros w. specialize (H w). destruct ok; [|assumption].
  destruct H as (w' & Hm & Hu & Hlog & Hrow).
  exists w'. rewrite <- Hf, <- He. auto.
Qed.

(** The password step. *)
Lemma stepSpec_password (config : conf.Configuration)
    (p : params.adminUserParams) :
  stepSpec
    match params.Password p with
    | Some password =>
        if Z.of_nat (String.length password) <? conf.PasswordMinLength config
        then fail (invalidPasswordLengthError config)
        else User_UpdatePassword fails hashPassword password
    | None => returnNil
    end
    (passwordAccepted config p
     && (isNil (params.Password p) || negb (fails OpUpdatePassword)))
    (match params.Password p with
     | Some password => with_EncryptedPassword (hashPassword password)
     | None => fun u => u
     end)
    noEntries.
Proof.
  unfold passwordAccepted.
  destruct (params.Password p) as [password|]; cbn.
  - destruct (Z.of_nat (String.length password) <? conf.PasswordMinLength config);
      cbn.
    + now apply stepSpec_fail.
    + now apply stepSpec_persist.
  - apply stepSpec_returnNil.
Qed.

(** The ban step. *)
Lemma stepSpec_ban (p : params.adminUserParams) :
  stepSpec
    (when (negb (String.eqb (params.BanDuration p) ""))
       ((if String.eqb (params.BanDuration p) "none"
         then assign (with_BannedUntil None)
         else match time.ParseDuration (params.BanDuration p) with
              | None =>
                  fail (badRequestError
                          ("Invalid format for ban_duration: " +:+
                           "time: invalid duration " +:+ params.BanDuration p))
              | Some duration =>
                  assign (with_BannedUntil (Some (time.Add now duration)))
              end) >> User_UpdateBannedUntil fails))
    (banDurationAccepted p
     && (String.eqb (params.BanDuration p) "" || negb (fails OpUpdateBannedUntil)))
    (fun u => with_BannedUntil (requestedBan now p (models.BannedUntil u)) u)
    noEntries.
Proof.
  unfold banDurationAccepted, requestedBan, User_UpdateBannedUntil.
  destruct (String.eqb (params.BanDuration p) "") eqn:E0; cbn.
  { apply (stepSpec_ext returnNil true true (fun u => u) _ noEntries noEntries);
      try reflexivity; [|apply stepSpec_returnNil].
    intros u. now destruct u. }
  destruct (String.eqb (params.BanDuration p) "none") eqn:E1; cbn.
  { apply (stepSpec_persist OpUpdateBannedUntil (with_BannedUntil None)).
    reflexivity. }
  destruct (time.ParseDuration (params.BanDuration p)) as [duration|]; cbn.
  - apply (stepSpec_persist OpUpdateBannedUntil
             (with_BannedUntil (Some (time.Add now duration)))).
    reflexivity.
  - split; [reflexivity|]. intros w. unfold andThen, fail. eauto.
Qed.

(** A step taken when an optional parameter is present. *)
Lemma stepSpec_optional {A : Type} (o : option A) (op : StorageOp)
    (f : A -> models.User -> models.User) :
  (forall x u, models.ID (f x u) = models.ID u) ->
  stepSpec
    match o with
    | Some x => assign (f x) >> persist fails op
    | None => returnNil
    end
    (isNil o || negb (fails op))
    (match o with Some x => f x | None => fun u => u end)
    noEntries.
Proof.
  intros Hid. destruct o as [x|]; cbn.
  - now apply stepSpec_persist.
  - apply stepSpec_returnNil.
Qed.

(** The audit insert that ends the transaction. *)
Lemma stepSpec_audit (ctx : Context) :
  stepSpec
    (fun w =>
       NewAuditLogEntry fails (getInstanceID ctx) (getAdminUser ctx)
         models.UserModifiedAction (models.ID (user w))
         (models.Email (user w)) (models.Phone (user w)) w)
    (negb (fails (OpNewAuditLogEntry models.UserModifiedAction)))
    (fun u => u)
    (fun u => [auditEntry ctx models.UserModifiedAction u]).
Proof.
  split; [reflexivity|]. intros w. unfold NewAuditLogEntry, exec. cbn.
  destruct (fails (OpNewAuditLogEntry models.UserModifiedAction)); cbn;
    [eauto|].
  eexists. split; [reflexivity|]. cbn. repeat split.
  intros H. now rewrite insert_id.
Qed.

Lemma forallb_unless (g : StorageOp -> bool) (c : bool) (op : StorageOp) :
  forallb g (if c then [] else [op]) = c || g op.
Proof. destruct c; cbn; [reflexivity | apply andb_true_r]. Qed.

Lemma forallb_if (g : StorageOp -> bool) (c : bool) (op : StorageOp) :
  forallb g (if c then [op] else []) = negb c || g op.
Proof. destruct c; cbn; [apply andb_true_r | reflexivity]. Qed.

(** The in-place updates of the nine steps, one after the other, give the
    record with every requested change applied. *)
Lemma updatedUser_steps (p : params.adminUserParams) (u : models.User) :
  with_BannedUntil
    (requestedBan now p
       (models.BannedUntil
          (match params.UserMetaData p with
           | Some x => fun u => with_UserMetaData (x ∪ models.UserMetaData u) u
           | None => fun u => u
           end
             (match params.AppMetaData p with
              | Some x => fun u => with_AppMetaData (x ∪ models.AppMetaData u) u
              | None => fun u => u
              end
                ((if negb (String.eqb (params.Phone p) "")
                  then with_Phone (params.Phone p) else fun u => u)
                   ((if negb (String.eqb (params.Email p) "")
                     then with_Email (params.Email p) else fun u => u)
                      (match params.Password p with
                       | Some password =>
                           with_EncryptedPassword (hashPassword password)
                       | None => fun u => u
                       end
                         ((if params.PhoneConfirm p
                           then with_PhoneConfirmedAt (Some now)
                           else fun u => u)
                            ((if params.EmailConfirm p
                              then with_EmailConfirmedAt (Some now)
                              else fun u => u)
                               ((if negb (String.eqb (params.Role p) "")
                                 then with_Role (params.Role p)
                                 else fun u => u) u))))))))))
    (match params.UserMetaData p with
     | Some x => fun u => with_UserMetaData (x ∪ models.UserMetaData u) u
     | None => fun u => u
     end
       (match params.AppMetaData p with
        | Some x => fun u => with_AppMetaData (x ∪ models.AppMetaData u) u
        | None => fun u => u
        end
          ((if negb (String.eqb (params.Phone p) "")
            then with_Phone (params.Phone p) else fun u => u)
             ((if negb (String.eqb (params.Email p) "")
               then with_Email (params.Email p) else fun u => u)
                (match params.Password p with
                 | Some password =>
                     with_EncryptedPassword (hashPassword password)
                 | None => fun u => u
                 end
                   ((if params.PhoneConfirm p
                     then with_PhoneConfirmedAt (Some now)
                     else fun u => u)
                      ((if params.EmailConfirm p
                        then with_EmailConfirmedAt (Some now)
                        else fun u => u)
                         ((if negb (String.eqb (params.Role p) "")
                           then with_Role (params.Role p)
                           else fun u => u) u))))))))
  = updatedUser now hashPassword p u.
Proof.
  unfold updatedUser. destruct u.
  destruct (String.eqb (params.Role p) ""), (params.EmailConfirm p),
    (params.PhoneConfirm p), (params.Password p),
    (String.eqb (params.Email p) ""), (String.eqb (params.Phone p) ""),
    (params.AppMetaData p), (params.UserMetaData p); reflexivity.
Qed.

(** The whole function passed to the transaction. *)
Lemma stepSpec_adminUserUpdate_fn (ctx : Context) (p : params.adminUserParams) :
  stepSpec (adminUserUpdate_fn fails now hashPassword ctx p)
    (everySubMutationSucceeds fails (getConfig ctx) p)
    (updatedUser now hashPassword p)
    (fun u => [auditEntry ctx models.UserModifiedAction
                 (updatedUser now hashPassword p u)]).
Proof.
  unfold adminUserUpdate_fn.
  eapply stepSpec_ext;
    [| | | eapply stepSpec_andThen;
             [apply stepSpec_when, stepSpec_persist; reflexivity|];
           eapply stepSpec_andThen;
             [apply stepSpec_when, stepSpec_persist; reflexivity|];
           eapply stepSpec_andThen;
             [apply stepSpec_when, stepSpec_persist; reflexivity|];
           eapply stepSpec_andThen; [apply stepSpec_password|];
           eapply stepSpec_andThen;
             [apply stepSpec_when, stepSpec_persist; reflexivity|];
           eapply stepSpec_andThen;
             [apply stepSpec_when, stepSpec_persist; reflexivity|];
           eapply stepSpec_andThen;
             [apply (stepSpec_optional (params.AppMetaData p) OpUpdateAppMetaData
                       (fun updates u =>
                          with_AppMetaData (updates ∪ models.AppMetaData u) u));
              reflexivity|];
           eapply stepSpec_andThen;
             [apply (stepSpec_optional (params.UserMetaData p) OpUpdateUserMetaData
                       (fun updates u =>
                          with_UserMetaData (updates ∪ models.UserMetaData u) u));
              reflexivity|];
           eapply stepSpec_andThen; [apply stepSpec_ban|];
           apply stepSpec_audit ].
  - unfold everySubMutationSucceeds, requestedOps.
    rewrite !forallb_app, !forallb_unless, !forallb_if, !negb_involutive.
    cbn [forallb].
    repeat match goal with
           | |- context [orb ?a ?b] => generalize (orb a b); intro
           end.
    generalize (passwordAccepted (getConfig ctx) p)
               (banDurationAccepted p)
               (negb (fails (OpNewAuditLogEntry models.UserModifiedAction))).
    intros. btauto.
  - intros u. apply updatedUser_steps.
  - intros u. unfold noEntries. cbn [app]. do 2 f_equal.
    apply updatedUser_steps.
Qed.

(** C1.  [adminUserUpdate] runs the requested changes and the audit
    insert of kind [UserModifiedAction] in one transaction, on a user whose
    row is the user object of the request.  When every requested
    sub-mutation succeeds, the handler answers with the updated user, the
    row of the user holds every requested change (a ban duration [none]
    clears the ban expiry, any other duration that parses sets it to the
    current time plus the duration) and the audit log has exactly one more
    entry, of kind [UserModifiedAction].  When a sub-mutation fails (a
    storage operation, a password under the minimum length, a ban duration
    that does not parse, or the audit insert itself) the handler answers
    with an error and storage is as before: no field is changed and no
    audit entry is written. *)
Theorem adminUserUpdate_atomic (ctx : Context) (p : params.adminUserParams)
    (w : World) :
  models.Users (db w) !! models.ID (user w) = Some (user w) ->
  let updated := updatedUser now hashPassword p (user w) in
  let '(res, w') := adminUserUpdate fails now hashPassword ctx (Ok p) w in
  if everySubMutationSucceeds fails (getConfig ctx) p
  then
    res = Ok updated /\
    models.Users (db w')
    = <[models.ID (user w) := updated]> (models.Users (db w)) /\
    models.AuditLog (db w')
    = models.AuditLog (db w) ++ [auditEntry ctx models.UserModifiedAction updated] /\
    (params.BanDuration p = "none" -> models.BannedUntil updated = None) /\
    (forall duration,
       params.BanDuration p <> "" -> params.BanDuration p <> "none" ->
       time.ParseDuration (params.BanDuration p) = Some duration ->
       models.BannedUntil updated = Some (now + duration))
  else (exists e, res = Err e) /\ db w' = db w.
Proof.
  intros Hsync updated.
  destruct (stepSpec_adminUserUpdate_fn ctx p) as [_ H].
  specialize (H (record TxBegin w)).
  unfold adminUserUpdate, Transaction.
  destruct (everySubMutationSucceeds fails (getConfig ctx) p).
  - destruct H as (w1 & -> & Hu & Hlog & Hrow). cbn in *.
    rewrite Hu. fold updated.
    split; [reflexivity|]. split; [now apply Hrow|]. split; [assumption|].
    subst updated. cbn. unfold requestedBan. split.
    + now intros ->.
    + intros duration Hne1 Hne2 ->.
      apply String.eqb_neq in Hne1, Hne2. now rewrite Hne1, Hne2.
  - destruct H as (e & w1 & ->).
    destruct (decide (e = invalidPasswordLengthError (getConfig ctx)));
      [cbn; eauto|].
    destruct (strings.Contains (Error e) "Invalid format for ban_duration");
      cbn; eauto.
Qed.

End AdminProperties.

(** When only the audit insert of a deletion fails, the transaction is
    rolled back with no [Destroy] sent, and the row of the user is still
    in storage. *)
Lemma adminUserDelete_audit_first_witness :
  let '(res, w') := adminUserDelete auditFault (sampleContext []) sampleWorld in
  issued w'
  = [TxBegin; OpNewAuditLogEntry models.UserDeletedAction; TxRollback] /\
  db w' = sampleStore /\
  models.Users (db w') !! sampleUserID = Some sampleUser /\
  exists e, res = Err e.
Proof.
  pose proof (adminUserDelete_audit_first auditFault (sampleContext [])
                sampleWorld) as H.
  cbv zeta in H.
  destruct (adminUserDelete auditFault (sampleContext []) sampleWorld)
    as [res w'].
  destruct H as (_ & H & _). exact (H eq_refl).
Defined.

(** On the library model of [time.ParseDuration], for a request that
    changes nothing but the ban duration, at time 1000 and with no storage
    fault.  The duration [1h] sets the ban expiry of the stored user to
    one hour after the current time and writes one audit entry; a duration
    that does not parse leaves storage as it was. *)
Lemma adminUserUpdate_atomic_witness :
  (let '(res, w') :=
     adminUserUpdate noFaults 1000 (fun s => s) (sampleContext [])
       (Ok (banRequest "1h")) sampleWorld in
   res = Ok (with_BannedUntil (Some 3600000001000) sampleUser) /\
   models.Users (db w') !! sampleUserID
   = Some (with_BannedUntil (Some 3600000001000) sampleUser) /\
   models.AuditLog (db w')
   = [auditEntry (sampleContext []) models.UserModifiedAction sampleUser]) /\
  (let '(res, w') :=
     adminUserUpdate noFaults 1000 (fun s => s) (sampleContext [])
       (Ok (banRequest "next week")) sampleWorld in
   (exists e, res = Err e) /\ db w' = sampleStore).
Proof.
  split.
  - pose proof (adminUserUpdate_atomic noFaults 1000 (fun s => s)
                  (sampleContext []) (banRequest "1h") sampleWorld eq_refl)
      as H.
    cbv zeta in H.
    destruct (adminUserUpdate noFaults 1000 (fun s => s) (sampleContext [])
                (Ok (banRequest "1h")) sampleWorld) as [res w'].
    change (everySubMutationSucceeds noFaults (getConfig (sampleContext []))
              (banRequest "1h")) with true in H.
    destruct H as (Hres & Hrow & Hlog & _ & Hban).
    split; [exact Hres|]. split; [|exact Hlog].
    rewrite Hrow. apply lookup_insert_eq.
  - exact (adminUserUpdate_atomic noFaults 1000 (fun s => s)
             (sampleContext []) (banRequest "next week") sampleWorld eq_refl).
Defined.

(** ** The request audience *)

(** [requestAud] takes the first non-empty value among the audience
    header, the audience of the claims and the configured default; its
    result is empty only when all three are empty or absent. *)
Theorem requestAud_precedence (audHeaderName : string) (ctx : Context)
    (r : Request) :
  let header := Header_Get r audHeaderName in
  let claimed :=
    match getClaims ctx with
    | Some claims => models.Audience claims
    | None => ""
    end in
  let default := conf.Aud (conf.JWT (getConfig ctx)) in
  (header <> "" -> requestAud audHeaderName ctx r = header) /\
  (header = "" -> claimed <> "" -> requestAud audHeaderName ctx r = claimed) /\
  (header = "" -> claimed = "" -> requestAud audHeaderName ctx r = default) /\
  (requestAud audHeaderName ctx r = "" ->
   header = "" /\ claimed = "" /\ default = "").
Proof.
  intros header claimed default. subst header claimed default.
  unfold requestAud.
  destruct (String.eqb_spec (Header_Get r audHeaderName) "") as [Hh|Hh];
    cbn [negb].
  - destruct (getClaims ctx) as [claims|].
    + destruct (String.eqb_spec (models.Audience claims) "") as [Hc|Hc];
        cbn [negb]; repeat split; try congruence; tauto.
    + repeat split; try congruence; tauto.
  - repeat split; try congruence; tauto.
Qed.

(** On the sample tenant: the header wins over the claims, the claims
    over the default. *)
Lemma requestAud_precedence_witness :
  requestAud "X-JWT-AUD" (contextOf "0") (audRequest "tenant-b") = "tenant-b" /\
  requestAud "X-JWT-AUD" (contextOf "0") (audRequest "") = "authenticated" /\
  requestAud "X-JWT-AUD" (sampleContext []) (audRequest "") = "authenticated".
Proof.
  split; [|split].
  - apply (proj1 (requestAud_precedence "X-JWT-AUD" (contextOf "0")
                    (audRequest "tenant-b"))).
    discriminate.
  - apply (proj1 (proj2 (requestAud_precedence "X-JWT-AUD" (contextOf "0")
                           (audRequest "")))); [reflexivity | discriminate].
  - apply (proj1 (proj2 (proj2 (requestAud_precedence "X-JWT-AUD"
                                  (sampleContext []) (audRequest "")))));
      reflexivity.
Defined.

(** ** Membership in a slice *)

(** [isStringInSlice] is membership in the list. *)
Theorem isStringInSlice_iff (checkValue : string) (l : list string) :
  isStringInSlice checkValue l = true <-> checkValue ∈ l.
Proof.
  induction l as [|val rest IH]; cbn.
  - split; [discriminate | intros H; inversion H].
  - destruct (String.eqb_spec val checkValue) as [->|Hne].
    + split; [intros _; left | reflexivity].
    + rewrite IH. split.
      * now right.
      * intros H. apply elem_of_cons in H. destruct H as [H|H]; congruence.
Qed.

(** ** Redirects that are returned *)

Section RedirectSafety.
Context {L : url.Lib}.

Lemma getReferrer_safe (r : Request) (v : string) :
  getReferrer r = Returns v ->
  v = conf.SiteURL (getConfig (Request_Context r))
  \/ isRedirectURLValid (getConfig (Request_Context r)) v = Returns true.
Proof.
  unfold getReferrer.
  destruct (isRedirectURLValid _ (getRedirectTo r)) as [[|]|] eqn:E1; cbn;
    [intros [= <-]; now right | | discriminate].
  destruct (isRedirectURLValid _ (Referer r)) as [[|]|] eqn:E2; cbn;
    [intros [= <-]; now right | intros [= <-]; now left | discriminate].
Qed.

(** Whatever [getRedirectURLOrReferrer] returns is the configured site URL
    or a redirect that [isRedirectURLValid] accepts; the same holds for
    [getReferrer]. *)
Theorem returned_redirects_are_valid (r : Request) (reqref v : string) :
  getRedirectURLOrReferrer r reqref = Returns v
  \/ getReferrer r = Returns v ->
  v = conf.SiteURL (getConfig (Request_Context r))
  \/ isRedirectURLValid (getConfig (Request_Context r)) v = Returns true.
Proof.
  intros [H|H]; [|now apply getReferrer_safe].
  unfold getRedirectURLOrReferrer in H.
  destruct (isRedirectURLValid _ reqref) as [[|]|] eqn:E; cbn in H;
    [injection H as <-; now right | now apply getReferrer_safe | discriminate].
Qed.

(** A redirect stays valid when entries are added to the allow list. *)
Theorem isRedirectURLValid_monotone (config config' : conf.Configuration)
    (candidate : string) :
  conf.SiteURL config' = conf.SiteURL config ->
  conf.URIAllowListMap config ⊆ conf.URIAllowListMap config' ->
  isRedirectURLValid config candidate = Returns true ->
  isRedirectURLValid config' candidate = Returns true.
Proof.
  intros Hsite Hsub Hvalid.
  destruct (String.eqb_spec candidate "") as [->|Hne]; [discriminate|].
  destruct (url.Parse candidate) as [parsed|] eqn:Hp.
  - assert (Hfst : fst (parseURL candidate) = Some (normalizePath parsed))
      by (rewrite fst_parseURL, Hp; reflexivity).
    rewrite (isRedirectURLValid_parsed config _ _ Hne Hfst) in Hvalid.
    rewrite (isRedirectURLValid_parsed config' _ _ Hne Hfst).
    rewrite Hsite. injection Hvalid as Hvalid. f_equal.
    apply orb_true_iff in Hvalid. apply orb_true_iff.
    destruct Hvalid as [Hhost|Hlist]; [now left|right].
    apply (allowList_exists config' candidate _ Hfst).
    apply (allowList_exists config candidate _ Hfst) in Hlist.
    destruct Hlist as (uri & g & Hlook & Hm).
    exists uri, g. split; [|assumption].
    eapply lookup_weaken; eassumption.
  - rewrite isRedirectURLValid_unparseable in Hvalid by assumption.
    discriminate.
Qed.

End RedirectSafety.

(** An invalid redirect parameter and a referrer on the site: the referrer
    is returned, and it is valid. *)
Lemma returned_redirects_are_valid_witness :
  getRedirectURLOrReferrer
    (sampleRequest [] "" "https://trusted.example/page")
    "https://evil.example/" = Returns "https://trusted.example/page" /\
  isRedirectURLValid (siteConfig []) "https://trusted.example/page"
  = Returns true.
Proof.
  assert (H : getRedirectURLOrReferrer
                (sampleRequest [] "" "https://trusted.example/page")
                "https://evil.example/" = Returns "https://trusted.example/page")
    by (vm_compute; reflexivity).
  split; [exact H|].
  destruct (returned_redirects_are_valid _ _ _ (or_introl H)) as [Hs|Hv];
    [discriminate Hs | exact Hv].
Defined.

(** A redirect on the site, valid with the empty allow list, is valid
    with an entry added. *)
Lemma isRedirectURLValid_monotone_witness :
  isRedirectURLValid (siteConfig ["https://a.example/cb"])
    "https://trusted.example/x" = Returns true.
Proof.
  apply (isRedirectURLValid_monotone (siteConfig [])).
  - reflexivity.
  - apply map_empty_subseteq.
  - vm_compute. reflexivity.
Defined.

(** ** More on the private-address block list *)

Lemma isPrivateIP_loop_returns (blocks : list IPNetPtr) (ip : net.IP) :
  Forall (fun block => block <> None) blocks ->
  isPrivateIP_loop blocks ip = Returns (existsb (blockHolds ip) blocks).
Proof.
  induction 1 as [|block blocks Hb _ IH]; [reflexivity|].
  destruct block as [[a n]|]; [|congruence].
  cbn. destruct (net.Contains n ip); [reflexivity | exact IH].
Qed.

(** On a list with no nil block [isPrivateIP] returns, and it returns
    [true] exactly when some block of the list contains the address,
    whatever the order of the blocks. *)
Theorem isPrivateIP_iff (g : Globals) (ip : net.IP) :
  Forall (fun block => block <> None) (privateIPBlocks g) ->
  (exists b, isPrivateIP g ip = Returns b) /\
  (isPrivateIP g ip = Returns true
   <-> exists a n, Some (a, n) ∈ privateIPBlocks g /\ net.Contains n ip = true).
Proof.
  intros Hnil. unfold isPrivateIP.
  rewrite (isPrivateIP_loop_returns _ _ Hnil). split; [eauto|].
  split.
  - intros [= H]. apply existsb_exists in H.
    destruct H as ([[a n]|] & Hin & Hc); [|discriminate].
    exists a, n. split; [now apply list_elem_of_In | exact Hc].
  - intros (a & n & Hin & Hc). f_equal. apply existsb_exists.
    exists (Some (a, n)). split; [now apply list_elem_of_In | exact Hc].
Qed.

(** On the initial list: 10.1.2.3 is private, and the block that holds it
    is in the list. *)
Lemma isPrivateIP_iff_witness :
  exists a n,
    Some (a, n) ∈ privateIPBlocks init /\ net.Contains n [10; 1; 2; 3] = true.
Proof.
  apply (proj2 (isPrivateIP_iff init [10; 1; 2; 3]
                  ltac:(vm_compute; repeat constructor; discriminate))).
  vm_compute. reflexivity.
Defined.

Lemma loopback_parses : net.ParseCIDR "127.0.0.0/8" = Some loopbackNet.
Proof. vm_compute. reflexivity. Qed.

(** What the removal returns on a list of allocated networks. *)
Lemma removeLocalhost_result (g : Globals) (first : IPNetPtr)
    (rest : list IPNetPtr) :
  privateIPBlocks g = first :: rest -> blocksAllocated g ->
  removeLocalhostFromPrivateIPBlock g
  = Returns (Some (allocated g, loopbackNet),
             {| privateIPBlocks := rest; allocated := S (allocated g) |}).
Proof.
  intros Hblocks Hallocated.
  unfold removeLocalhostFromPrivateIPBlock, parseCIDRBlock.
  rewrite loopback_parses. cbn [privateIPBlocks allocated].
  rewrite localhostIndex_loop_fresh.
  - rewrite Hblocks. cbn. now rewrite drop_0.
  - eapply Forall_impl; [exact Hallocated|].
    intros block (a & m & -> & Hlt). cbn.
    apply Nat.eqb_neq. lia.
Qed.

(** Putting a block at the head of the list never makes a private address
    public, and on a list of allocated networks the removal never makes a
    public address private. *)
Theorem block_list_monotone (g : Globals) (ip : net.IP) :
  (forall address n,
     isPrivateIP g ip = Returns true ->
     isPrivateIP (unshiftPrivateIPBlock (Some (address, n)) g) ip
     = Returns true) /\
  (forall localhost g',
     blocksAllocated g ->
     removeLocalhostFromPrivateIPBlock g = Returns (localhost, g') ->
     isPrivateIP g' ip = Returns true ->
     isPrivateIP g ip = Returns true).
Proof.
  split.
  - intros address n H. unfold isPrivateIP, unshiftPrivateIPBlock in *. cbn.
    destruct (net.Contains n ip); [reflexivity | exact H].
  - intros localhost g' Hall Hrem Hpriv.
    destruct (privateIPBlocks g) as [|first rest] eqn:Hblocks.
    + unfold removeLocalhostFromPrivateIPBlock, parseCIDRBlock in Hrem.
      rewrite loopback_parses in Hrem. cbn in Hrem. rewrite Hblocks in Hrem.
      discriminate.
    + rewrite (removeLocalhost_result g first rest Hblocks Hall) in Hrem.
      injection Hrem as _ <-.
      unfold isPrivateIP in *. rewrite Hblocks. cbn in *.
      unfold blocksAllocated in Hall. rewrite Hblocks in Hall.
      apply Forall_cons in Hall. destruct Hall as [(a & n & -> & _) _].
      cbn. destruct (net.Contains n ip); [reflexivity | exact Hpriv].
Qed.

(** On the initial list: 10.1.2.3 is private before and after a block is
    put at the head, and private after the removal as it was before. *)
Lemma block_list_monotone_witness :
  isPrivateIP (unshiftPrivateIPBlock (customBlock (allocated init)) init)
    [10; 1; 2; 3] = Returns true.
Proof.
  apply (proj1 (block_list_monotone init [10; 1; 2; 3]) (allocated init)
           {| net.net_IP := [203; 0; 113; 0];
              net.net_Mask := [255; 255; 255; 0] |}).
  vm_compute. reflexivity.
Defined.

(** When the first block of a list of allocated networks is the loopback
    network, removing it and putting the returned block back at the head
    gives a list that classifies every address as before. *)
Theorem remove_then_unshift_restores (g : Globals) (address : nat)
    (rest : list IPNetPtr) (ip : net.IP) :
  privateIPBlocks g = Some (address, loopbackNet) :: rest ->
  blocksAllocated g ->
  exists localhost g',
    removeLocalhostFromPrivateIPBlock g = Returns (localhost, g') /\
    isPrivateIP (unshiftPrivateIPBlock localhost g') ip = isPrivateIP g ip.
Proof.
  intros Hblocks Hall.
  eexists. eexists. split.
  - apply (removeLocalhost_result g _ rest Hblocks Hall).
  - unfold isPrivateIP, unshiftPrivateIPBlock. cbn. now rewrite Hblocks.
Qed.

(** On the initial list, for the address 127.0.0.1. *)
Lemma remove_then_unshift_restores_witness :
  exists localhost g',
    removeLocalhostFromPrivateIPBlock init = Returns (localhost, g') /\
    isPrivateIP (unshiftPrivateIPBlock localhost g') [127; 0; 0; 1]
    = Returns true.
Proof.
  destruct (remove_then_unshift_restores init 0
              (tail (privateIPBlocks init)) [127; 0; 0; 1])
    as (localhost & g' & Hrem & Hsame).
  - reflexivity.
  - unfold blocksAllocated. vm_compute.
    repeat constructor; eexists; eexists; (split; [reflexivity|]); lia.
  - exists localhost, g'. split; [exact Hrem|].
    rewrite Hsame. vm_compute. reflexivity.
Defined.

(** *** The IPv4 ranges of the initial list *)

Lemma byte_forall (P : Z -> bool) :
  forallb P (map Z.of_nat (seq 0 256)) = true ->
  forall x, isByte x -> P x = true.
Proof.
  intros H x [Hlo Hhi]. rewrite forallb_forall in H. apply H.
  apply in_map_iff. exists (Z.to_nat x). split; [lia|].
  apply in_seq. lia.
Qed.

Lemma land_255 (x : Z) : isByte x -> Z.land x 255 = x.
Proof.
  intros H. apply Z.eqb_eq.
  apply (byte_forall (fun x => Z.land x 255 =? x)); [|exact H].
  vm_compute. reflexivity.
Qed.

Lemma land_192 (x : Z) :
  isByte x -> (64 =? Z.land x 192) = ((64 <=? x) && (x <=? 127)).
Proof.
  intros H. apply Bool.eqb_prop.
  apply (byte_forall
           (fun x => Bool.eqb (64 =? Z.land x 192) ((64 <=? x) && (x <=? 127))));
    [|exact H].
  vm_compute. reflexivity.
Qed.

Lemma land_240 (x : Z) :
  isByte x -> (16 =? Z.land x 240) = ((16 <=? x) && (x <=? 31)).
Proof.
  intros H. apply Bool.eqb_prop.
  apply (byte_forall
           (fun x => Bool.eqb (16 =? Z.land x 240) ((16 <=? x) && (x <=? 31))));
    [|exact H].
  vm_compute. reflexivity.
Qed.

(** [Contains] on a 4-byte network and a 4-byte address. *)
Lemma Contains_v4 (n0 n1 n2 n3 m0 m1 m2 m3 a b c d : Z) :
  net.Contains {| net.net_IP := [n0; n1; n2; n3];
                  net.net_Mask := [m0; m1; m2; m3] |} [a; b; c; d]
  = (Z.land n0 m0 =? Z.land a m0)
    && ((Z.land n1 m1 =? Z.land b m1)
        && ((Z.land n2 m2 =? Z.land c m2)
            && ((Z.land n3 m3 =? Z.land d m3) && true))).
Proof. reflexivity. Qed.

(** The 16-byte form of an IPv4 address is treated as its 4-byte form. *)
Lemma Contains_IPv4 (n : net.IPNet) (a b c d : Z) :
  net.Contains n (net.IPv4 a b c d) = net.Contains n [a; b; c; d].
Proof. reflexivity. Qed.

Lemma init_blocks :
  privateIPBlocks init =
  [ Some (0%nat, loopbackNet);
    Some (1%nat, {| net.net_IP := [10; 0; 0; 0]; net.net_Mask := [255; 0; 0; 0] |});
    Some (2%nat, {| net.net_IP := [100; 64; 0; 0];
                    net.net_Mask := [255; 192; 0; 0] |});
    Some (3%nat, {| net.net_IP := [172; 16; 0; 0];
                    net.net_Mask := [255; 240; 0; 0] |});
    Some (4%nat, {| net.net_IP := [192; 0; 0; 0];
                    net.net_Mask := [255; 255; 255; 0] |});
    Some (5%nat, {| net.net_IP := [192; 168; 0; 0];
                    net.net_Mask := [255; 255; 0; 0] |});
    Some (6%nat, {| net.net_IP := [169; 254; 0; 0];
                    net.net_Mask := [255; 255; 0; 0] |});
    Some (7%nat, {| net.net_IP := [0; 0; 0; 0; 0; 0; 0; 0; 0; 0; 0; 0; 0; 0; 0; 1];
                    net.net_Mask := [255; 255; 255; 255; 255; 255; 255; 255;
                                     255; 255; 255; 255; 255; 255; 255; 255] |});
    Some (8%nat, {| net.net_IP := [254; 128; 0; 0; 0; 0; 0; 0; 0; 0; 0; 0; 0; 0; 0; 0];
                    net.net_Mask := [255; 192; 0; 0; 0; 0; 0; 0;
                                     0; 0; 0; 0; 0; 0; 0; 0] |});
    Some (9%nat, {| net.net_IP := [252; 0; 0; 0; 0; 0; 0; 0; 0; 0; 0; 0; 0; 0; 0; 0];
                    net.net_Mask := [254; 0; 0; 0; 0; 0; 0; 0;
                                     0; 0; 0; 0; 0; 0; 0; 0] |}) ].
Proof. vm_compute. reflexivity. Qed.

Lemma existsb_v4_blocks (a b c d : Z) :
  isByte a -> isByte b -> isByte c -> isByte d ->
  existsb (blockHolds [a; b; c; d]) (privateIPBlocks init) = privateIPv4 a b c.
Proof.
  intros Ha Hb Hc Hd. rewrite init_blocks. unfold loopbackNet, privateIPv4.
  cbn [existsb blockHolds].
  rewrite !Contains_v4.
  change (net.Contains
            {| net.net_IP := [0; 0; 0; 0; 0; 0; 0; 0; 0; 0; 0; 0; 0; 0; 0; 1];
               net.net_Mask := _ |} [a; b; c; d]) with false.
  change (net.Contains
            {| net.net_IP := [254; 128; 0; 0; 0; 0; 0; 0; 0; 0; 0; 0; 0; 0; 0; 0];
               net.net_Mask := _ |} [a; b; c; d]) with false.
  change (net.Contains
            {| net.net_IP := [252; 0; 0; 0; 0; 0; 0; 0; 0; 0; 0; 0; 0; 0; 0; 0];
               net.net_Mask := _ |} [a; b; c; d]) with false.
  rewrite !Z.land_0_r, !(land_255 a), !(land_255 b), !(land_255 c) by assumption.
  change (Z.land 127 255) with 127. change (Z.land 10 255) with 10.
  change (Z.land 100 255) with 100. change (Z.land 172 255) with 172.
  change (Z.land 192 255) with 192. change (Z.land 168 255) with 168.
  change (Z.land 169 255) with 169. change (Z.land 254 255) with 254.
  change (Z.land 0 255) with 0.
  change (Z.land 64 192) with 64. change (Z.land 16 240) with 16.
  rewrite (land_192 b), (land_240 b) by assumption.
  rewrite !Z.eqb_refl, !andb_true_r, !orb_false_r.
  rewrite !(Z.eqb_sym _ a), !(Z.eqb_sym _ b), !(Z.eqb_sym _ c).
  rewrite !andb_assoc, !orb_assoc. reflexivity.
Qed.

(** On the initial block list an IPv4 address [a.b.c.d], in its 4-byte or
    its 16-byte form, is private exactly when it lies in one of the seven
    IPv4 ranges of the table: 127/8, 10/8, 100.64/10, 172.16/12,
    192.0.0/24, 192.168/16, 169.254/16. *)
Theorem isPrivateIP_IPv4_ranges (a b c d : Z) :
  isByte a -> isByte b -> isByte c -> isByte d ->
  isPrivateIP init [a; b; c; d] = Returns (privateIPv4 a b c) /\
  isPrivateIP init (net.IPv4 a b c d) = Returns (privateIPv4 a b c).
Proof.
  intros Ha Hb Hc Hd.
  assert (Hnil : Forall (fun block : IPNetPtr => block <> None)
                   (privateIPBlocks init)).
  { rewrite init_blocks. repeat constructor; discriminate. }
  unfold isPrivateIP. rewrite !(isPrivateIP_loop_returns _ _ Hnil).
  split; f_equal.
  - now apply existsb_v4_blocks.
  - rewrite <- (existsb_v4_blocks a b c d) by assumption.
    clear Hnil.
    induction (privateIPBlocks init) as [|[[address n]|] blocks IH];
      [reflexivity | |]; cbn [existsb blockHolds];
      rewrite IH, ?Contains_IPv4; reflexivity.
Qed.

(** 172.31.255.255 is the last private address of its range, 172.32.0.0
    is public. *)
Lemma isPrivateIP_IPv4_ranges_witness :
  isPrivateIP init [172; 31; 255; 255] = Returns true /\
  isPrivateIP init [172; 32; 0; 0] = Returns false.
Proof.
  split.
  - exact (proj1 (isPrivateIP_IPv4_ranges 172 31 255 255
                    ltac:(unfold isByte; lia) ltac:(unfold isByte; lia)
                    ltac:(unfold isByte; lia) ltac:(unfold isByte; lia))).
  - exact (proj1 (isPrivateIP_IPv4_ranges 172 32 0 0
                    ltac:(unfold isByte; lia) ltac:(unfold isByte; lia)
                    ltac:(unfold isByte; lia) ltac:(unfold isByte; lia))).
Defined.

(** ** The connection callback *)

Lemma existsb_false_iff {A : Type} (f : A -> bool) (l : list A) :
  existsb f l = false <-> forall x, x ∈ l -> f x = false.
Proof.
  induction l as [|y l IH]; cbn.
  - split; [intros _ x H; inversion H | reflexivity].
  - rewrite orb_false_iff, IH. split.
    + intros [Hy Hl] x Hx. apply elem_of_cons in Hx.
      destruct Hx as [->|Hx]; auto.
    + intros H. split; [apply H; left | intros x Hx; apply H; now right].
Qed.

(** With no nil block in the list, the callback of the transport returns,
    and it lets a connection go on exactly when the address splits into
    host and port, the host is the text of an IP address, and no block of
    the list contains that address.  Every other address (no port, a host
    name, an address of a block) is cancelled. *)
Theorem ConnectStart_proceeds_iff (g : Globals) (addr : string) :
  Forall (fun block => block <> None) (privateIPBlocks g) ->
  (exists cancelled, ConnectStart g addr = Returns cancelled) /\
  (ConnectStart g addr = Returns false
   <-> exists host port ip,
         GoNet.SplitHostPort addr = Some (host, port) /\
         net.ParseIP host = Some ip /\
         forall a n, Some (a, n) ∈ privateIPBlocks g ->
                     net.Contains n ip = false).
Proof.
  intros Hnil. unfold ConnectStart.
  destruct (GoNet.SplitHostPort addr) as [[host port]|].
  2:{ split; [eauto|]. split; [discriminate|].
      intros (h & p & ip & H & _). discriminate. }
  destruct (net.ParseIP host) as [ip|] eqn:Hip.
  2:{ split; [eauto|]. split; [discriminate|].
      intros (h & p & ip & H1 & H2 & _).
      injection H1 as -> ->. congruence. }
  unfold isPrivateIP. rewrite (isPrivateIP_loop_returns _ _ Hnil). cbn.
  destruct (existsb (blockHolds ip) (privateIPBlocks g)) eqn:E.
  - split; [eauto|]. split; [discriminate|].
    intros (h & p & ip' & H1 & H2 & Hall).
    injection H1 as -> ->. rewrite Hip in H2. injection H2 as <-.
    apply existsb_exists in E. destruct E as ([[a n]|] & Hin & Hc);
      [|discriminate].
    apply list_elem_of_In in Hin. cbn in Hc.
    rewrite (Hall a n Hin) in Hc. discriminate.
  - split; [eauto|]. split; [|reflexivity].
    intros _. exists host, port, ip. repeat split; [exact Hip|].
    intros a n Hin.
    apply (proj1 (existsb_false_iff _ _) E (Some (a, n)) Hin).
Qed.

(** On the initial list: the address [8.8.8.8:53] goes on, and no block
    contains 8.8.8.8; a connection to the loopback address, to a private
    range, to a host name or to an address with no port is cancelled. *)
Lemma ConnectStart_proceeds_iff_witness :
  (exists host port ip,
     GoNet.SplitHostPort "8.8.8.8:53" = Some (host, port) /\
     net.ParseIP host = Some ip /\
     forall a n, Some (a, n) ∈ privateIPBlocks init ->
                 net.Contains n ip = false) /\
  map (ConnectStart init)
    ["127.0.0.1:80"; "[::1]:443"; "192.168.1.1:8080"; "example.com:80";
     "10.0.0.1"]
  = [Returns true; Returns true; Returns true; Returns true; Returns true].
Proof.
  split; [|vm_compute; reflexivity].
  apply (proj2 (ConnectStart_proceeds_iff init "8.8.8.8:53"
                  ltac:(rewrite init_blocks; repeat constructor; discriminate))).
  vm_compute. reflexivity.
Defined.

(** ** Loading the target user *)

Section LoadUserProperties.
Context {U : uuid.Lib}.
Variable find : models.Store -> uuid.UUID -> uuid.UUID ->
                option models.User * option error.

(** [loadUser] rejects a [user_id] that is no UUID as a bad request and
    sends no query for it.  A well-formed identifier is looked up once, by
    tenant and identifier: the user found is put in the context; the
    not-found error of the lookup becomes the not-found error of the API;
    any other error of the lookup becomes an internal server error that
    keeps it as its cause. *)
Theorem loadUser_cases (user_id : string) (ctx : Context)
    (conn : models.Store) :
  let run := loadUser find user_id ctx conn in
  let instanceID := getInstanceID ctx in
  (uuid.FromString user_id = None ->
   run = ((None, Some (badRequestError "user_id must be an UUID")), [])) /\
  (forall userID, uuid.FromString user_id = Some userID ->
     snd run = [QueryFindUser instanceID userID] /\
     (forall u, find conn instanceID userID = (u, None) ->
                fst run = (u, None)) /\
     (forall u, find conn instanceID userID = (u, Some UserNotFoundError) ->
                fst run = (None, Some (notFoundError "User not found"))) /\
     (forall u err, find conn instanceID userID = (u, Some err) ->
                    err <> UserNotFoundError ->
                    fst run
                    = (None, Some (WithInternalError
                                     (internalServerError
                                        "Database error loading user") err)))).
Proof.
  intros run instanceID. subst run instanceID. unfold loadUser.
  split; [now intros ->|].
  intros userID ->. cbn.
  destruct (find conn (getInstanceID ctx) userID) as [u [err|]] eqn:E; cbn.
  - split; [now destruct (IsNotFoundError err)|]. split; [discriminate|].
    split.
    + intros u' [= -> ->]. reflexivity.
    + intros u' err' [= -> ->] Hne.
      destruct err'; try reflexivity. congruence.
  - split; [reflexivity|]. split; [now intros u' [= ->]|].
    split; discriminate.
Qed.

End LoadUserProperties.

(** With the lookup by tenant and identifier, on a storage whose rows are
    kept under the identifiers of their users: the user [loadUser] puts in
    the context is a row of the storage, under its own identifier, and of
    the tenant of the request; the only errors are the bad request and the
    not-found error. *)
Theorem loadUser_loads_row {U : uuid.Lib} (user_id : string) (ctx : Context)
    (conn : models.Store) :
  rowsKeyedByID conn ->
  let run := fst (loadUser models.FindUserByInstanceIDAndID user_id ctx conn) in
  (forall u, run = (u, None) ->
     exists row, u = Some row /\
       models.Users conn !! models.ID row = Some row /\
       models.InstanceID row = getInstanceID ctx) /\
  (forall u err, run = (u, Some err) ->
     u = None /\
     (err = badRequestError "user_id must be an UUID"
      \/ err = notFoundError "User not found")).
Proof.
  intros Hkeys run. subst run. unfold loadUser.
  destruct (uuid.FromString user_id) as [userID|]; cbn.
  2:{ split; [discriminate|]. intros u err [= <- <-]. auto. }
  unfold models.FindUserByInstanceIDAndID.
  destruct (models.Users conn !! userID) as [row|] eqn:Hrow; cbn.
  - destruct (N.eqb_spec (models.InstanceID row) (getInstanceID ctx)) as [Hi|Hi];
      cbn.
    + split; [|discriminate]. intros u [= <-]. exists row.
      rewrite (Hkeys _ _ Hrow). auto.
    + split; [discriminate|]. intros u err [= <- <-]. auto.
  - split; [discriminate|]. intros u err [= <- <-]. auto.
Qed.

(** On the sample storage: the identifier of the stored user loads its
    row. *)
Lemma loadUser_loads_row_witness :
  exists row,
    fst (loadUser models.FindUserByInstanceIDAndID
           "6ba7b810-9dad-11d1-80b4-00c04fd430c8" (sampleContext []) sampleStore)
    = (Some row, None) /\
    models.Users sampleStore !! models.ID row = Some row.
Proof.
  assert (Hkeys : rowsKeyedByID sampleStore).
  { intros key u H. unfold sampleStore in H. cbn in H.
    apply lookup_singleton_Some in H. destruct H as [<- <-]. reflexivity. }
  destruct (loadUser_loads_row "6ba7b810-9dad-11d1-80b4-00c04fd430c8"
              (sampleContext []) sampleStore Hkeys) as [Hok _].
  destruct (Hok (Some sampleUser)) as (row & Hrow & Hlook & _);
    [vm_compute; reflexivity|].
  exists row. split; [|exact Hlook].
  injection Hrow as <-. vm_compute. reflexivity.
Defined.

(** On the library model with the lookup of package [models]: a
    [user_id] that is no UUID sends no query. *)
Lemma loadUser_cases_witness :
  loadUser models.FindUserByInstanceIDAndID "42" (sampleContext []) sampleStore
  = ((None, Some (badRequestError "user_id must be an UUID")), []).
Proof.
  apply (proj1 (loadUser_cases models.FindUserByInstanceIDAndID "42"
                  (sampleContext []) sampleStore)).
  vm_compute. reflexivity.
Defined.

(** ** Errors of the update handler *)

Section UpdateErrors.
Context {T : time.Lib}.
Variable fails : StorageOp -> bool.
Variable now : time.Time.
Variable hashPassword : string -> string.










End UpdateErrors.


(** Case analysis on the innermost scrutinee of a nest of matches. *)
Ltac destruct_inner x :=
  lazymatch x with
  | context [match ?y with _ => _ end] => destruct_inner y
  | _ => destruct x eqn:?
  end.

(** ** Creating a user *)

Section CreateProperties.
Context {T : time.Lib}.
Variable fails : StorageOp -> bool.
Variable now : time.Time.
Variable audHeaderName : string.
Variable validateEmail : string -> option error.
Variable validatePhone : string -> string * option error.
Variable IsDuplicatedEmail :
  models.Store -> uuid.UUID -> string -> string -> bool * option error.
Variable IsDuplicatedPhone :
  models.Store -> uuid.UUID -> string -> string -> bool * option error.
Variable generatePassword : string * option error.
Variable NewUser :
  uuid.UUID -> string -> string -> string -> string ->
  option (gmap string string) -> result models.User.
Variable createFails : bool.

(** What the checks before the transaction have established when they
    let the request through. *)
Lemma adminUserCreate_prepare_Ok (ctx : Context) (r : Request)
    (p : params.adminUserParams) (conn : models.Store) (created : models.User) :
  adminUserCreate_prepare now audHeaderName validateEmail validatePhone
    IsDuplicatedEmail IsDuplicatedPhone generatePassword NewUser
    ctx r p conn = Ok created ->
  (params.Email p <> "" \/ params.Phone p <> "")
  /\ (params.Email p <> "" ->
      validateEmail (params.Email p) = None
      /\ IsDuplicatedEmail conn (getInstanceID ctx) (params.Email p)
           (createAud audHeaderName ctx r p) = (false, None))
  /\ (params.Phone p <> "" ->
      exists phone,
        validatePhone (params.Phone p) = (phone, None)
        /\ IsDuplicatedPhone conn (getInstanceID ctx) phone
             (createAud audHeaderName ctx r p) = (false, None))
  /\ (params.Password p = None \/ params.Password p = Some "" ->
      snd generatePassword = None)
  /\ (params.BanDuration p <> "" ->
      time.ParseDuration (params.BanDuration p) <> None).
Proof.
  unfold adminUserCreate_prepare. fold (createAud audHeaderName ctx r p).
  cbv zeta.
  repeat (match goal with
          | |- match ?x with _ => _ end = Ok _ -> _ => destruct_inner x
          end; cbn [negb andb]; try discriminate).
  all: intros _.
  all: repeat match goal with
       | H : negb _ = true |- _ => apply negb_true_iff in H
       | H : negb _ = false |- _ => apply negb_false_iff in H
       | H : _ && _ = false |- _ => apply andb_false_iff in H; destruct H
       | H : String.eqb _ _ = true |- _ => apply String.eqb_eq in H
       | H : String.eqb _ _ = false |- _ => apply String.eqb_neq in H
       end.
  all: subst; cbn [snd].
  all: repeat split; try tauto; try congruence.
  all: try (intros [?|[= ?]]; congruence).
  all: try (intros _; eexists; split; [reflexivity | eassumption]).
  all: (left; assumption) || (right; assumption).
Qed.


(** [adminUserCreate] sends something to storage only when every check
    before the transaction has passed: the request has an email or a
    phone; the email, when given, is valid and not registered in the
    audience; the phone, when given, is valid and, once formatted, not
    registered; a password was given or could be generated; the ban
    duration, when given, parses.  What it sends then begins with the
    transaction and the audit entry, before the row of the user. *)
Theorem adminUserCreate_checks_first (ctx : Context) (r : Request)
    (p : params.adminUserParams) (w : World) :
  issued (snd (adminUserCreate fails now audHeaderName validateEmail
                 validatePhone IsDuplicatedEmail IsDuplicatedPhone
                 generatePassword NewUser createFails ctx r (Ok p) w))
  <> issued w ->
  (params.Email p <> "" \/ params.Phone p <> "")
  /\ (params.Email p <> "" ->
      validateEmail (params.Email p) = None
      /\ IsDuplicatedEmail (db w) (getInstanceID ctx) (params.Email p)
           (createAud audHeaderName ctx r p) = (false, None))
  /\ (params.Phone p <> "" ->
      exists phone,
        validatePhone (params.Phone p) = (phone, None)
        /\ IsDuplicatedPhone (db w) (getInstanceID ctx) phone
             (createAud audHeaderName ctx r p) = (false, None))
  /\ (params.Password p = None \/ params.Password p = Some "" ->
      snd generatePassword = None)
  /\ (params.BanDuration p <> "" ->
      time.ParseDuration (params.BanDuration p) <> None)
  /\ exists rest,
       issued (snd (adminUserCreate fails now audHeaderName validateEmail
                      validatePhone IsDuplicatedEmail IsDuplicatedPhone
                      generatePassword NewUser createFails ctx r (Ok p) w))
       = issued w
         ++ TxBegin :: OpNewAuditLogEntry models.UserSignedUpAction :: rest.
Proof.
  unfold adminUserCreate.
  destruct (adminUserCreate_prepare _ _ _ _ _ _ _ _ _ _ _ _)
    as [created|err] eqn:Eprepare; [|intros H; now destruct H].
  intros _. apply adminUserCreate_prepare_Ok in Eprepare.
  destruct Eprepare as (H1 & H2 & H3 & H4 & H5).
  repeat (split; [assumption|]).
  unfold Transaction, adminUserCreate_fn, andThen, NewAuditLogEntry, exec,
    Create, User_SetRole, User_Confirm, User_ConfirmPhone, when, persist,
    exec, assign, andThen, returnNil.
  cbn.
  destruct (fails (OpNewAuditLogEntry models.UserSignedUpAction));
    [cbn; rewrite <- !app_assoc; eexists; reflexivity|].
  destruct createFails; [cbn; rewrite <- !app_assoc; eexists; reflexivity|].
  destruct (fails OpSetRole);
    [cbn; rewrite <- !app_assoc; eexists; reflexivity|].
  destruct (params.EmailConfirm p); cbn;
    [destruct (fails OpConfirm);
     [cbn; rewrite <- !app_assoc; eexists; reflexivity|]|];
    (destruct (params.PhoneConfirm p); cbn;
     [destruct (fails OpConfirmPhone);
      [cbn; rewrite <- !app_assoc; eexists; reflexivity|]|]);
    cbn; rewrite <- !app_assoc; eexists; reflexivity.
Qed.

(** [adminUserCreate] never creates a user with a ban duration that does
    not parse: whatever the other fields and checks, it answers with an
    error and sends nothing to storage.  The word [none], which the
    update handler takes as the lifting of a ban, is such a duration
    here. *)
Theorem adminUserCreate_unparsed_ban (ctx : Context) (r : Request)
    (p : params.adminUserParams) (w : World) :
  params.BanDuration p <> "" ->
  time.ParseDuration (params.BanDuration p) = None ->
  exists e,
    adminUserCreate fails now audHeaderName validateEmail validatePhone
      IsDuplicatedEmail IsDuplicatedPhone generatePassword NewUser createFails
      ctx r (Ok p) w = (Err e, w).
Proof.
  intros Hset Hparse. unfold adminUserCreate.
  destruct (adminUserCreate_prepare _ _ _ _ _ _ _ _ _ _ _ _)
    as [created|err] eqn:Eprepare; [|now exists err].
  apply adminUserCreate_prepare_Ok in Eprepare.
  destruct Eprepare as (_ & _ & _ & _ & H5). now destruct (H5 Hset).
Qed.

End CreateProperties.

(** A request for [grace@example.com] passes the checks of the sample
    collaborators and reaches the storage. *)
Lemma adminUserCreate_checks_first_witness :
  emailTaken (db sampleWorld) 0%N "grace@example.com" "authenticated"
  = (false, None)
  /\ issued (snd (adminUserCreate (T := GoTime.lib) noFaults 1000 "X-JWT-AUD"
                    acceptEmail keepPhone emailTaken phoneTaken samplePassword
                    sampleNewUser false (sampleContext [])
                    (sampleRequest [] "" "")
                    (Ok (createRequest "grace@example.com" "24h")) sampleWorld))
     = [TxBegin; OpNewAuditLogEntry models.UserSignedUpAction; OpSetRole;
        OpConfirm; TxCommit].
Proof.
  split.
  - refine (proj2 (proj1 (proj2 (adminUserCreate_checks_first
              (T := GoTime.lib) noFaults 1000 "X-JWT-AUD"
              acceptEmail keepPhone emailTaken phoneTaken samplePassword
              sampleNewUser false (sampleContext []) (sampleRequest [] "" "")
              (createRequest "grace@example.com" "24h") sampleWorld _)) _));
      [vm_compute; discriminate | discriminate].
  - vm_compute. reflexivity.
Defined.

(** On Go's [time.ParseDuration], a request to create a user with the ban
    duration [none] is answered with an error and nothing reaches the
    storage. *)
Lemma adminUserCreate_unparsed_ban_witness :
  exists e,
    adminUserCreate (T := GoTime.lib) noFaults 1000 "X-JWT-AUD"
      acceptEmail keepPhone emailTaken phoneTaken samplePassword
      sampleNewUser false (sampleContext []) (sampleRequest [] "" "")
      (Ok (createRequest "grace@example.com" "none")) sampleWorld
    = (Err e, sampleWorld).
Proof.
  apply (adminUserCreate_unparsed_ban (T := GoTime.lib));
    [discriminate | vm_compute; reflexivity].
Defined.

(** ** Errors of the delete handler *)


